(** * Watcher: audit-template validation, patch validation, the API wrapper
      and the Action object life cycle

    Shallow embedding of
    - [watcher/api/controllers/v1/audit_template.py]
      ([AuditTemplatePostType], [AuditTemplatePatchType], [AuditTemplate]),
    - [watcher/decision_engine/manager.py] (the option table),
    - the Action object exercised by [watcher/tests/objects/test_action.py].

    Python values that travel through these functions are JSON documents, so
    the embedding carries a [json] type together with the few dynamic
    operations of Python the code applies to them (truth value, [in],
    iteration, subscripting).  Exceptions are values of [exn]; a function that
    may raise returns a [result]. *)

From stdpp Require Import gmap strings list fin_maps.
From Stdlib Require Import ZArith String.

Local Open Scope Z_scope.
Local Open Scope string_scope.

(** ** Python values *)

Set Warnings "-register-all".

(** A JSON document as Python sees it after decoding: [None], [bool], a
    number (integers are enough here), [str], [list] and [dict].  A dict is
    kept as its list of items. *)
Inductive json : Type :=
| JNull
| JBool (b : bool)
| JNum (n : Z)
| JStr (s : string)
| JArr (items : list json)
| JObj (members : list (string * json)).

(** Exceptions raised by the modelled code. *)
Inductive exn : Type :=
| InvalidGoal (goal : json)
| InvalidStrategy (strategy : json)
| InvalidStrategy_message (message : string)
| Invalid (message : string)
| OperationNotPermitted (message : string)
| GoalNotFound
| StrategyNotFound
| ActionNotFound
| ValidationError
| KeyError (key : json)
| IndexError
| TypeError.

Inductive result (A : Type) : Type :=
| Ok (a : A)
| Raise (e : exn).
Arguments Ok {A} a.
Arguments Raise {A} e.

Definition rbind {A B} (r : result A) (k : A -> result B) : result B :=
  match r with
  | Ok a => k a
  | Raise e => Raise e
  end.

Notation "x <- r ;; k" := (rbind r (fun x => k))
  (at level 100, r at next level, right associativity).

Module Py.

(** [bool(v)]. *)
Definition truthy (v : json) : bool :=
  match v with
  | JNull => false
  | JBool b => b
  | JNum n => negb (Z.eqb n 0)
  | JStr s => negb (String.eqb s "")
  | JArr l => match l with [] => false | _ => true end
  | JObj m => match m with [] => false | _ => true end
  end.

(** A wsme attribute is [Unset] ([None] here) or a value; [Unset] is false. *)
Definition truthy_attr (v : option json) : bool :=
  match v with
  | None => false
  | Some j => truthy j
  end.

Definition truthy_text (v : option string) : bool :=
  match v with
  | None => false
  | Some s => negb (String.eqb s "")
  end.

(** [needle in s] for two strings. *)
Fixpoint is_substring (needle s : string) : bool :=
  String.prefix needle s ||
  match s with
  | EmptyString => false
  | String _ s' => is_substring needle s'
  end.

Definition is_str (k : string) (v : json) : bool :=
  match v with
  | JStr s => String.eqb k s
  | _ => false
  end.

Definition has_key (k : string) (m : list (string * json)) : bool :=
  existsb (fun kv => String.eqb k (fst kv)) m.

(** [d.get(k)] on the items of a dict. *)
Fixpoint assoc (k : string) (m : list (string * json)) : option json :=
  match m with
  | [] => None
  | (k', v) :: m' => if String.eqb k k' then Some v else assoc k m'
  end.

(** [k in v] with [k] a string: key membership for a dict, element
    membership for a list, substring test for a string, [TypeError] for
    anything that is not a container. *)
Definition contains (k : string) (v : json) : result bool :=
  match v with
  | JObj m => Ok (has_key k m)
  | JArr l => Ok (existsb (is_str k) l)
  | JStr s => Ok (is_substring k s)
  | _ => Raise TypeError
  end.

Fixpoint chars (s : string) : list json :=
  match s with
  | EmptyString => []
  | String c s' => JStr (String c EmptyString) :: chars s'
  end.

(** The sequence a [for] loop runs over. *)
Definition iter (v : json) : result (list json) :=
  match v with
  | JArr l => Ok l
  | JObj m => Ok (map (fun kv => JStr (fst kv)) m)
  | JStr s => Ok (chars s)
  | _ => Raise TypeError
  end.

(** [v[0]]. *)
Definition getitem0 (v : json) : result json :=
  match v with
  | JArr [] => Raise IndexError
  | JArr (x :: _) => Ok x
  | JStr EmptyString => Raise IndexError
  | JStr (String c _) => Ok (JStr (String c EmptyString))
  | JObj m => Raise (KeyError (JNum 0))
  | _ => Raise TypeError
  end.

(** [v[k]] with [k] a string. *)
Definition getitem (v : json) (k : string) : result json :=
  match v with
  | JObj m => match assoc k m with
              | Some x => Ok x
              | None => Raise (KeyError (JStr k))
              end
  | _ => Raise TypeError
  end.

(** [{key(x): x for x in l}]: a later element replaces an earlier one with
    the same key. *)
Definition dict_by {A} (key : A -> string) (l : list A) : gmap string A :=
  foldl (fun m x => <[key x := x]> m) ∅ l.

(** [v in d] for a dict [d] with string keys: a string is looked up, any
    other hashable value is simply absent, a list or a dict cannot be
    hashed. *)
Definition dict_contains {A} (v : json) (d : gmap string A) : result bool :=
  match v with
  | JStr s => Ok (bool_decide (is_Some (d !! s)))
  | JArr _ | JObj _ => Raise TypeError
  | _ => Ok false
  end.

(** [d[v]] after [v in d] answered true. *)
Definition dict_getitem {A} (d : gmap string A) (v : json) : result A :=
  match v with
  | JStr s => match d !! s with
              | Some x => Ok x
              | None => Raise (KeyError v)
              end
  | JArr _ | JObj _ => Raise TypeError
  | _ => Raise (KeyError v)
  end.

(** Whether [hash(v)] succeeds: a list and a dict cannot be hashed. *)
Definition hashable (v : json) : bool :=
  match v with
  | JArr _ | JObj _ => false
  | _ => true
  end.

(** [", ".join(l)]. *)
Definition join (sep : string) (l : list string) : string :=
  String.concat sep l.

End Py.

(** ** The catalog: goals and strategies *)

Module Goal.
Record t : Type := mk
  { id : Z; uuid : string; name : string; display_name : string }.
End Goal.

Module Strategy.
Record t : Type := mk
  { id : Z; uuid : string; name : string; display_name : string;
    goal_id : Z }.
End Strategy.

(** ** Draft-4 schema validation

    [common_utils.Draft4Validator] is the validator of the [jsonschema]
    package.  A schema is itself a JSON document.  The keywords interpreted
    here are the ones the schema of [_build_schema] is made of: [type] (one
    type name), [items] (one schema for every element), [properties] and
    [additionalProperties] (a boolean).  Each of [items], [properties] and
    [additionalProperties] only constrains an instance of the matching kind. *)

Module Draft4.

Definition member (schema : json) (keyword : string) : option json :=
  match schema with
  | JObj m => Py.assoc keyword m
  | _ => None
  end.

Definition is_type (name : string) (inst : json) : bool :=
  match inst with
  | JNull => String.eqb name "null"
  | JBool _ => String.eqb name "boolean"
  | JNum _ => String.eqb name "integer" || String.eqb name "number"
  | JStr _ => String.eqb name "string"
  | JArr _ => String.eqb name "array"
  | JObj _ => String.eqb name "object"
  end.

Definition type_ok (schema inst : json) : bool :=
  match member schema "type" with
  | Some (JStr name) => is_type name inst
  | _ => true
  end.

(** [additionalProperties: false] forbids a member that [properties] does
    not list; absent or [true] it allows any. *)
Definition additional_allowed (schema : json) : bool :=
  match member schema "additionalProperties" with
  | Some (JBool false) => false
  | _ => true
  end.

Definition property (schema : json) (k : string) : option json :=
  match member schema "properties" with
  | Some props => member props k
  | None => None
  end.

Fixpoint is_valid (schema inst : json) {struct inst} : bool :=
  type_ok schema inst &&
  match inst with
  | JArr l =>
      match member schema "items" with
      | Some s => forallb (is_valid s) l
      | None => true
      end
  | JObj m =>
      forallb (fun kv =>
                 match property schema (fst kv) with
                 | Some s => is_valid s (snd kv)
                 | None => additional_allowed schema
                 end) m
  | _ => true
  end.

(** [Draft4Validator(schema).validate(inst)] for a schema the library can
    work with.  On a schema that is itself at fault (an unknown type name, a
    reference that cannot be resolved) the library raises exceptions of its
    own, which are outside this model. *)
Definition validate (schema inst : json) : result unit :=
  if is_valid schema inst then Ok tt else Raise ValidationError.

End Draft4.

(** ** Cluster data model collectors

    [ClusterDataModelCollectorLoader().list_available()] is a dict from a
    collector's name to its class; a class may or may not carry a [SCHEMA]
    attribute. *)
Record collector : Type := { SCHEMA : option json }.

(** ** [AuditTemplatePostType] *)

Module AuditTemplatePostType.

Record t : Type := mk
  { name : string;
    description : option string;
    goal : string;
    strategy : option string;
    scope : json }.

Definition _get_schemas (collectors : gmap string collector)
  : gmap string json :=
  omap SCHEMA collectors.

Definition _build_schema (collectors : gmap string collector) : json :=
  JObj [("$schema", JStr "http://json-schema.org/draft-04/schema#");
        ("type", JStr "array");
        ("items",
          JObj [("type", JStr "object");
                ("properties", JObj (map_to_list (_get_schemas collectors)));
                ("additionalProperties", JBool false)])].

(** The value of [SCHEMA["items"]], the schema of one element of the scope
    document. *)
Definition items_schema (collectors : gmap string collector) : json :=
  JObj [("type", JStr "object");
        ("properties", JObj (map_to_list (_get_schemas collectors)));
        ("additionalProperties", JBool false)].

(** The inner loop over [rule['exclude']]. *)
Fixpoint scan_resources (resources : list json) (exclude_host_aggregates : bool)
  : result bool :=
  match resources with
  | [] => Ok exclude_host_aggregates
  | resource :: rest =>
      b <- Py.contains "host_aggregates" resource ;;
      scan_resources rest (if b then true else exclude_host_aggregates)
  end.

(** The loop over [audit_template.scope[0]['compute']], threading the two
    flags. *)
Fixpoint scan_rules (rules : list json)
    (include_host_aggregates exclude_host_aggregates : bool)
  : result (bool * bool) :=
  match rules with
  | [] => Ok (include_host_aggregates, exclude_host_aggregates)
  | rule :: rest =>
      b <- Py.contains "host_aggregates" rule ;;
      if b then scan_rules rest true exclude_host_aggregates
      else
        e <- Py.contains "exclude" rule ;;
        if e then
          ex <- Py.getitem rule "exclude" ;;
          resources <- Py.iter ex ;;
          exc <- scan_resources resources exclude_host_aggregates ;;
          scan_rules rest include_host_aggregates exc
        else scan_rules rest include_host_aggregates exclude_host_aggregates
  end.

Definition check_scope (collectors : gmap string collector) (scope : json)
  : result unit :=
  _ <- Draft4.validate (_build_schema collectors) scope ;;
  first <- Py.getitem0 scope ;;
  compute <- Py.getitem first "compute" ;;
  rules <- Py.iter compute ;;
  flags <- scan_rules rules false false ;;
  if fst flags && snd flags
  then Raise (Invalid "host_aggregates can't be included and excluded together")
  else Ok tt.

Definition resolve_goal (available_goals : list Goal.t) (goal : string)
  : result Goal.t :=
  let available_goal_uuids_map := Py.dict_by Goal.uuid available_goals in
  let available_goal_names_map := Py.dict_by Goal.name available_goals in
  match available_goal_uuids_map !! goal with
  | Some g => Ok g
  | None =>
      match available_goal_names_map !! goal with
      | Some g => Ok g
      | None => Raise (InvalidGoal (JStr goal))
      end
  end.

Definition choice (s : Strategy.t) : string :=
  "'" +:+ Strategy.uuid s +:+ "' (" +:+ Strategy.name s +:+ ")".

Definition incompatible_message (strategy : Strategy.t) (goal : Goal.t)
    (choices : list string) : string :=
  "'" +:+ Strategy.name strategy +:+ "' strategy does relate to the '"
  +:+ Goal.name goal +:+ "' goal. Possible choices: "
  +:+ Py.join ", " choices.

(** The [if audit_template.strategy:] block; the result is the value of
    [audit_template.strategy] afterwards. *)
Definition check_strategy (available_strategies : list Strategy.t)
    (goal : Goal.t) (strategy : option string) : result (option string) :=
  match strategy with
  | Some s =>
      if negb (String.eqb s "") then
        let available_strategies_map :=
          Py.dict_by Strategy.uuid available_strategies in
        match available_strategies_map !! s with
        | None => Raise (InvalidStrategy (JStr s))
        | Some strategy =>
            if negb (Z.eqb (Strategy.goal_id strategy) (Goal.id goal)) then
              let choices := map choice available_strategies in
              Raise (InvalidStrategy_message
                       (incompatible_message strategy goal choices))
            else Ok (Some (Strategy.uuid strategy))
        end
      else Ok strategy
  | None => Ok strategy
  end.

(** [validate] assigns to the attributes of the object it is given and
    returns that object: the result is the object as it is afterwards.
    [objects.Goal.list], [objects.Strategy.list] and the collector registry
    are read once and passed in. *)
Definition validate (available_goals : list Goal.t)
    (available_strategies : list Strategy.t)
    (collectors : gmap string collector) (audit_template : t) : result t :=
  goal <- resolve_goal available_goals (goal audit_template) ;;
  _ <- (if Py.truthy (scope audit_template)
        then check_scope collectors (scope audit_template)
        else Ok tt) ;;
  strategy' <- check_strategy available_strategies goal
                 (strategy audit_template) ;;
  Ok {| name := name audit_template;
        description := description audit_template;
        goal := Goal.uuid goal;
        strategy := strategy';
        scope := scope audit_template |}.

End AuditTemplatePostType.

(** ** [AuditTemplatePatchType] *)

Module AuditTemplatePatchType.

(** One JSON-patch operation; [value] is [Unset] ([None]) when the request
    carries none. *)
Record t : Type := mk
  { path : string; op : string; value : option json }.

Definition set_path (p : string) (patch : t) : t :=
  {| path := p; op := op patch; value := value patch |}.

Definition set_value (v : json) (patch : t) : t :=
  {| path := path patch; op := op patch; value := Some v |}.

(** The lookup shared by [_validate_goal] and [_validate_strategy]: first
    the map keyed by uuid, then the map keyed by name; [ident] extracts the
    numeric id that replaces the patch value. *)
Definition lookup_id {A} (ident : A -> Z) (uuids names : gmap string A)
    (invalid : json -> exn) (v : json) : result Z :=
  in_uuids <- Py.dict_contains v uuids ;;
  if in_uuids then x <- Py.dict_getitem uuids v ;; Ok (ident x)
  else
    in_names <- Py.dict_contains v names ;;
    if in_names then x <- Py.dict_getitem names v ;; Ok (ident x)
    else Raise (invalid v).

Definition _validate_goal (available_goals : list Goal.t) (patch : t)
  : result t :=
  let patch := set_path "/goal_id" patch in
  match value patch with
  | Some goal =>
      if Py.truthy goal then
        let available_goal_uuids_map := Py.dict_by Goal.uuid available_goals in
        let available_goal_names_map := Py.dict_by Goal.name available_goals in
        i <- lookup_id Goal.id available_goal_uuids_map
               available_goal_names_map InvalidGoal goal ;;
        Ok (set_value (JNum i) patch)
      else Ok patch
  | None => Ok patch
  end.

Definition _validate_strategy (available_strategies : list Strategy.t)
    (patch : t) : result t :=
  let patch := set_path "/strategy_id" patch in
  match value patch with
  | Some strategy =>
      if Py.truthy strategy then
        let available_strategy_uuids_map :=
          Py.dict_by Strategy.uuid available_strategies in
        let available_strategy_names_map :=
          Py.dict_by Strategy.name available_strategies in
        i <- lookup_id Strategy.id available_strategy_uuids_map
               available_strategy_names_map InvalidStrategy strategy ;;
        Ok (set_value (JNum i) patch)
      else Ok patch
  | None => Ok patch
  end.

Definition remove_goal_message : string :=
  "Cannot remove 'goal' attribute from an audit template".

Section Validate.

(** [types.JsonPatchType.validate], the base class check the method ends
    with; it lives in [watcher/api/controllers/v1/types.py]. *)
Variable JsonPatchType_validate : t -> result t.

Definition validate (available_goals : list Goal.t)
    (available_strategies : list Strategy.t) (patch : t) : result t :=
  patch <-
    (if String.eqb (path patch) "/goal" && negb (String.eqb (op patch) "remove")
     then _validate_goal available_goals patch
     else if String.eqb (path patch) "/goal" && String.eqb (op patch) "remove"
     then Raise (OperationNotPermitted remove_goal_message)
     else Ok patch) ;;
  patch <-
    (if String.eqb (path patch) "/strategy"
     then _validate_strategy available_strategies patch
     else Ok patch) ;;
  JsonPatchType_validate patch.

End Validate.

End AuditTemplatePatchType.

(** ** [AuditTemplate], the API representation *)

Module AuditTemplate.

(** The attributes the goal and strategy properties read and write.
    [goal_id] and [strategy_id] hold whatever the caller passed (a name, a
    uuid or a numeric id) until a lookup replaces them by the id. *)
Record t : Type := mk
  { goal_id : option json;
    strategy_id : option json;
    _goal_uuid : option string;
    _goal_name : option string;
    _strategy_uuid : option string;
    _strategy_name : option string }.

(** The class attributes [_goal_uuid = None] and so on. *)
Definition fresh : t :=
  {| goal_id := None; strategy_id := None;
     _goal_uuid := None; _goal_name := None;
     _strategy_uuid := None; _strategy_name := None |}.

Definition set_goal_id (v : option json) (self : t) : t :=
  {| goal_id := v; strategy_id := strategy_id self;
     _goal_uuid := _goal_uuid self; _goal_name := _goal_name self;
     _strategy_uuid := _strategy_uuid self;
     _strategy_name := _strategy_name self |}.

Definition set_strategy_id (v : option json) (self : t) : t :=
  {| goal_id := goal_id self; strategy_id := v;
     _goal_uuid := _goal_uuid self; _goal_name := _goal_name self;
     _strategy_uuid := _strategy_uuid self;
     _strategy_name := _strategy_name self |}.

Definition set__goal_uuid (v : option string) (self : t) : t :=
  {| goal_id := goal_id self; strategy_id := strategy_id self;
     _goal_uuid := v; _goal_name := _goal_name self;
     _strategy_uuid := _strategy_uuid self;
     _strategy_name := _strategy_name self |}.

Definition set__goal_name (v : option string) (self : t) : t :=
  {| goal_id := goal_id self; strategy_id := strategy_id self;
     _goal_uuid := _goal_uuid self; _goal_name := v;
     _strategy_uuid := _strategy_uuid self;
     _strategy_name := _strategy_name self |}.

Definition set__strategy_uuid (v : option string) (self : t) : t :=
  {| goal_id := goal_id self; strategy_id := strategy_id self;
     _goal_uuid := _goal_uuid self; _goal_name := _goal_name self;
     _strategy_uuid := v;
     _strategy_name := _strategy_name self |}.

Definition set__strategy_name (v : option string) (self : t) : t :=
  {| goal_id := goal_id self; strategy_id := strategy_id self;
     _goal_uuid := _goal_uuid self; _goal_name := _goal_name self;
     _strategy_uuid := _strategy_uuid self;
     _strategy_name := v |}.

(** [attr != value] for a cached attribute ([None] or a string) and a
    value that is true. *)
Definition differs (attr : option string) (value : json) : bool :=
  match attr, value with
  | Some a, JStr s => negb (String.eqb a s)
  | _, _ => true
  end.

Section Lookups.

(** [common_utils.is_uuid_like], [common_utils.is_int_like] and the four
    catalog reads ([objects.Goal.get], [objects.Goal.get_by_name] and the
    same for [Strategy]), taken with the request context applied. *)
Variables is_uuid_like is_int_like : json -> bool.
Variables Goal_get Goal_get_by_name : json -> result Goal.t.
Variables Strategy_get Strategy_get_by_name : json -> result Strategy.t.

Definition find_goal (value : json) : result Goal.t :=
  if is_uuid_like value || is_int_like value
  then Goal_get value
  else Goal_get_by_name value.

Definition find_strategy (value : json) : result Strategy.t :=
  if is_uuid_like value || is_int_like value
  then Strategy_get value
  else Strategy_get_by_name value.

(** Returns the object after the call and the goal found, if any. *)
Definition _get_goal (self : t) (value : option json)
  : result (t * option Goal.t) :=
  match value with
  | None => Ok (self, None)
  | Some v =>
      goal <- match find_goal v with
              | Ok g => Ok (Some g)
              | Raise GoalNotFound => Ok None
              | Raise e => Raise e
              end ;;
      match goal with
      | Some g => Ok (set_goal_id (Some (JNum (Goal.id g))) self, Some g)
      | None => Ok (self, None)
      end
  end.

Definition _get_strategy (self : t) (value : option json)
  : result (t * option Strategy.t) :=
  match value with
  | None => Ok (self, None)
  | Some v =>
      strategy <- match find_strategy v with
                  | Ok s => Ok (Some s)
                  | Raise StrategyNotFound => Ok None
                  | Raise e => Raise e
                  end ;;
      match strategy with
      | Some s =>
          Ok (set_strategy_id (Some (JNum (Strategy.id s))) self, Some s)
      | None => Ok (self, None)
      end
  end.

Definition guard (attr : option string) (value : option json) : bool :=
  match value with
  | Some v => Py.truthy v && differs attr v
  | None => false
  end.

Definition _set_goal_uuid (self : t) (value : option json) : result t :=
  if guard (_goal_uuid self) value then
    r <- _get_goal (set__goal_uuid None self) value ;;
    match snd r with
    | Some g => Ok (set__goal_uuid (Some (Goal.uuid g)) (fst r))
    | None => Ok (fst r)
    end
  else Ok self.

Definition _set_goal_name (self : t) (value : option json) : result t :=
  if guard (_goal_name self) value then
    r <- _get_goal (set__goal_name None self) value ;;
    match snd r with
    | Some g => Ok (set__goal_name (Some (Goal.name g)) (fst r))
    | None => Ok (fst r)
    end
  else Ok self.

Definition _set_strategy_uuid (self : t) (value : option json) : result t :=
  if guard (_strategy_uuid self) value then
    r <- _get_strategy (set__strategy_uuid None self) value ;;
    match snd r with
    | Some s => Ok (set__strategy_uuid (Some (Strategy.uuid s)) (fst r))
    | None => Ok (fst r)
    end
  else Ok self.

Definition _set_strategy_name (self : t) (value : option json) : result t :=
  if guard (_strategy_name self) value then
    r <- _get_strategy (set__strategy_name None self) value ;;
    match snd r with
    | Some s => Ok (set__strategy_name (Some (Strategy.name s)) (fst r))
    | None => Ok (fst r)
    end
  else Ok self.

(** The part of [__init__] that fills these attributes: [strategy_id] is
    stored as given, then the four properties are set from the [goal_id] and
    [strategy_id] keyword arguments ([None] when absent). *)
Definition __init__ (kw_goal_id kw_strategy_id : option json) : result t :=
  let self := set_strategy_id kw_strategy_id fresh in
  self <- _set_goal_uuid self kw_goal_id ;;
  self <- _set_goal_name self kw_goal_id ;;
  self <- _set_strategy_uuid self kw_strategy_id ;;
  _set_strategy_name self kw_strategy_id.

End Lookups.

End AuditTemplate.

(** ** The decision engine's options ([manager.py]) *)

Module DecisionEngineManager.

Inductive opt : Type :=
| StrOpt (name default : string)
| IntOpt (name : string) (default : Z) (required : bool).

Definition WATCHER_DECISION_ENGINE_OPTS : list opt :=
  [ StrOpt "topic_control" "watcher.decision.control";
    StrOpt "topic_status" "watcher.decision.status";
    StrOpt "publisher_id" "watcher.decision.api";
    IntOpt "max_workers" 2 true ].

(** [CONF.watcher_decision_engine.<name>] when the configuration sets
    nothing. *)
Fixpoint int_default (name : string) (opts : list opt) : option Z :=
  match opts with
  | [] => None
  | IntOpt n d _ :: rest =>
      if String.eqb n name then Some d else int_default name rest
  | StrOpt _ _ :: rest => int_default name rest
  end.

End DecisionEngineManager.

(** ** The Action object *)

Module Action.

Section Object.

(** Field values are compared for equality and nothing else. *)
Context {V : Type} `{EqDecision V}.

(** [objects.action.State.DELETED]. *)
Variable DELETED : V.

(** A stored record: its column values and the soft-delete mark. *)
Record row : Type := mk_row
  { values : gmap string V; deleted : bool }.

(** The calls that reach the database API, as the tests observe them. *)
Inductive db_call : Type :=
| get_action_by_uuid (uuid : string) (eager : bool)
| get_action_list (eager : bool)
| update_action (uuid : string) (updates : gmap string V)
| soft_delete_action (uuid : string)
| destroy_action (uuid : string).

Record store : Type := mk_store
  { rows : gmap string row; calls : list db_call }.

(** The in-memory object: its field values and the values last read
    from or written to the store. *)
Record t : Type := mk
  { uuid : string; fields : gmap string V; snapshot : gmap string V }.

Definition called (c : db_call) (st : store) : store :=
  {| rows := rows st; calls := calls st ++ [c] |}.

Definition visible (show_deleted : bool) (r : row) : bool :=
  show_deleted || negb (deleted r).

Definition of_row (u : string) (r : row) : t :=
  {| uuid := u; fields := values r; snapshot := values r |}.

(** Modelled from the spec: [get] of section 4.3, by uuid; the Action
    class and the database API are not among the sources.  It fails when
    no matching live record exists, unless the caller asks for deleted
    records too. *)
Definition get_by_uuid (st : store) (u : string) (eager show_deleted : bool)
  : result (t * store) :=
  let st' := called (get_action_by_uuid u eager) st in
  match rows st !! u with
  | Some r => if visible show_deleted r then Ok (of_row u r, st')
              else Raise ActionNotFound
  | None => Raise ActionNotFound
  end.

(** Modelled from the spec: [list] of section 4.3 without filters; the
    Action class and the database API are not among the sources. *)
Definition list (st : store) (eager show_deleted : bool)
  : list t * store :=
  (map (fun ur => of_row ur.1 ur.2)
       (filter (fun ur => visible show_deleted ur.2 = true)
               (map_to_list (rows st))),
   called (get_action_list eager) st).

(** [action.field = v]. *)
Definition setattr (o : t) (field : string) (v : V) : t :=
  {| uuid := uuid o; fields := <[field := v]> (fields o);
     snapshot := snapshot o |}.

(** A run of assignments [action.f1 = v1; action.f2 = v2; ...]. *)
Definition setattrs (o : t) (assignments : Datatypes.list (string * V)) : t :=
  foldl (fun o' fv => setattr o' fv.1 fv.2) o assignments.

(** Modelled from the spec: the field-by-field difference between the
    object and the last-read snapshot, which [save] sends; the Action
    class is not among the sources. *)
Definition obj_get_changes (o : t) : gmap string V :=
  filter (fun kv => snapshot o !! kv.1 ≠ Some kv.2) (fields o).

(** The database side of an update: the given columns replace the stored
    ones. *)
Definition write (u : string) (updates : gmap string V) (st : store)
  : result store :=
  match rows st !! u with
  | Some r =>
      Ok {| rows := <[u := {| values := updates ∪ values r;
                              deleted := deleted r |}]> (rows st);
            calls := calls st ++ [update_action u updates] |}
  | None => Raise ActionNotFound
  end.

(** Modelled from the spec: [save] of section 4.3; the Action class is
    not among the sources. *)
Definition save (o : t) (st : store) : result (t * store) :=
  st' <- write (uuid o) (obj_get_changes o) st ;;
  Ok ({| uuid := uuid o; fields := fields o; snapshot := fields o |}, st').

(** Modelled from the spec: [soft_delete] of section 4.3, with the two
    database calls [test_soft_delete] expects; the Action class is not
    among the sources. *)
Definition soft_delete (o : t) (st : store) : result (t * store) :=
  st1 <- write (uuid o) {["state" := DELETED]} st ;;
  match rows st1 !! uuid o with
  | Some r =>
      let fields' := <["state" := DELETED]> (fields o) in
      Ok ({| uuid := uuid o; fields := fields'; snapshot := fields' |},
          {| rows := <[uuid o := {| values := values r; deleted := true |}]>
                       (rows st1);
             calls := calls st1 ++ [soft_delete_action (uuid o)] |})
  | None => Raise ActionNotFound
  end.

(** Modelled from the spec: [destroy] of section 4.3; the Action class is
    not among the sources. *)
Definition destroy (o : t) (st : store) : result store :=
  match rows st !! uuid o with
  | Some _ =>
      Ok {| rows := delete (uuid o) (rows st);
            calls := calls st ++ [destroy_action (uuid o)] |}
  | None => Raise ActionNotFound
  end.

End Object.

Arguments row V : clear implicits.
Arguments db_call V : clear implicits.
Arguments store V : clear implicits.
Arguments t V : clear implicits.

End Action.

(** ** The create and read paths around the wrapper *)

Module AuditTemplateAPI.

(** The wrapper with the plain attributes this development follows next to
    the goal and strategy ones ([refs]); [None] is [Unset].  The links and the
    timestamps are left out. *)
Record t : Type := mk
  { uuid : option string;
    name : option string;
    description : option string;
    scope : option json;
    refs : AuditTemplate.t }.

(** The stored audit template as [as_dict()] hands it to the wrapper: the
    goal and the strategy are numeric ids, the strategy possibly [None]. *)
Record rpc : Type := mk_rpc
  { rpc_uuid : string;
    rpc_name : string;
    rpc_description : option string;
    rpc_goal_id : Z;
    rpc_strategy_id : option Z;
    rpc_scope : json }.

Definition id_value (i : option Z) : json :=
  match i with
  | Some n => JNum n
  | None => JNull
  end.

Section Lookups.

Variables is_uuid_like is_int_like : json -> bool.
Variables Goal_get Goal_get_by_name : json -> result Goal.t.
Variables Strategy_get Strategy_get_by_name : json -> result Strategy.t.

(** [AuditTemplatePostType.as_audit_template]: the goal and the strategy of
    the request are passed as [goal_id] and [strategy_id]. *)
Definition as_audit_template (self : AuditTemplatePostType.t) : result t :=
  r <- AuditTemplate.__init__ is_uuid_like is_int_like Goal_get
         Goal_get_by_name Strategy_get Strategy_get_by_name
         (Some (JStr (AuditTemplatePostType.goal self)))
         (option_map JStr (AuditTemplatePostType.strategy self)) ;;
  Ok {| uuid := None;
        name := Some (AuditTemplatePostType.name self);
        description := AuditTemplatePostType.description self;
        scope := Some (AuditTemplatePostType.scope self);
        refs := r |}.

(** [AuditTemplate._convert_with_links]: without [expand] only the summary
    fields stay set; the numeric ids are unset in both cases. *)
Definition _convert_with_links (audit_template : t) (expand : bool) : t :=
  {| uuid := uuid audit_template;
     name := name audit_template;
     description := if expand then description audit_template else None;
     scope := scope audit_template;
     refs := AuditTemplate.set_strategy_id None
               (AuditTemplate.set_goal_id None (refs audit_template)) |}.

(** [AuditTemplate.convert_with_links]. *)
Definition convert_with_links (rpc_audit_template : rpc) (expand : bool)
  : result t :=
  r <- AuditTemplate.__init__ is_uuid_like is_int_like Goal_get
         Goal_get_by_name Strategy_get Strategy_get_by_name
         (Some (JNum (rpc_goal_id rpc_audit_template)))
         (Some (id_value (rpc_strategy_id rpc_audit_template))) ;;
  Ok (_convert_with_links
        {| uuid := Some (rpc_uuid rpc_audit_template);
           name := Some (rpc_name rpc_audit_template);
           description := rpc_description rpc_audit_template;
           scope := Some (rpc_scope rpc_audit_template);
           refs := r |}
        expand).

End Lookups.

End AuditTemplateAPI.

(** ** [AuditTemplatesController]: the filters of [get_all] and [detail] *)

Module AuditTemplatesController.

Section Filters.

Variable is_uuid_like : json -> bool.

(** One [if goal:] block: the filter is filed under the uuid key or the name
    key according to the shape of the value. *)
Definition add_filter (uuid_key name_key : string) (value : option string)
    (filters : gmap string string) : gmap string string :=
  match value with
  | Some s =>
      if negb (String.eqb s "") then
        if is_uuid_like (JStr s) then <[uuid_key := s]> filters
        else <[name_key := s]> filters
      else filters
  | None => filters
  end.

(** The [filters] dict both methods build from [goal] and [strategy]. *)
Definition filters (goal strategy : option string) : gmap string string :=
  add_filter "strategy_uuid" "strategy_name" strategy
    (add_filter "goal_uuid" "goal_name" goal ∅).

End Filters.

End AuditTemplatesController.

(** ** Reading the compute rules

    What the loop of [validate] takes a rule for: an include rule carries
    [host_aggregates]; an exclude rule does not, and has an [exclude] list
    with an element that does. *)

Module ScopeRules.

(** The message of the [Invalid] exception the check ends with. *)
Definition conflict_message : string :=
  "host_aggregates can't be included and excluded together".

Definition includes_host_aggregates (rule : json) : bool :=
  match rule with
  | JObj m => Py.has_key "host_aggregates" m
  | _ => false
  end.

Definition excludes_host_aggregates (rule : json) : bool :=
  match rule with
  | JObj m =>
      negb (Py.has_key "host_aggregates" m)
      && match Py.assoc "exclude" m with
         | Some (JArr resources) => existsb includes_host_aggregates resources
         | _ => false
         end
  | _ => false
  end.

Definition is_object (v : json) : bool :=
  match v with
  | JObj _ => true
  | _ => false
  end.

(** The shape the schema of a compute collector gives a rule: an object
    whose [exclude] member, when present, is a list of objects. *)
Definition well_shaped (rule : json) : bool :=
  match rule with
  | JObj m =>
      match Py.assoc "exclude" m with
      | Some (JArr resources) => forallb is_object resources
      | Some _ => false
      | None => true
      end
  | _ => false
  end.

End ScopeRules.

(** ** A small catalog and registry used by the examples *)

Module Samples.

Definition server_consolidation : Goal.t :=
  {| Goal.id := 1; Goal.uuid := "fc087747-61be-4aad-8126-b701731ae836";
     Goal.name := "server_consolidation";
     Goal.display_name := "Server Consolidation" |}.

Definition thermal_optimization : Goal.t :=
  {| Goal.id := 2; Goal.uuid := "bb7b3b4a-8ad6-4d4b-a5b4-1d0d2a4b5a11";
     Goal.name := "thermal_optimization";
     Goal.display_name := "Thermal Optimization" |}.

Definition goals : list Goal.t :=
  [server_consolidation; thermal_optimization].

Definition basic : Strategy.t :=
  {| Strategy.id := 1; Strategy.uuid := "cb3d0b58-4415-4d90-b75b-1e96878730e3";
     Strategy.name := "basic";
     Strategy.display_name := "Basic offline consolidation";
     Strategy.goal_id := 1 |}.

Definition outlet_temperature : Strategy.t :=
  {| Strategy.id := 2; Strategy.uuid := "e7d2f2a4-5c0b-4a1f-9d6e-3f5a8b7c9d10";
     Strategy.name := "outlet_temperature";
     Strategy.display_name := "Outlet temperature based strategy";
     Strategy.goal_id := 2 |}.

Definition strategies : list Strategy.t := [basic; outlet_temperature].

Definition array_of (items : json) : json :=
  JObj [("type", JStr "array"); ("items", items)].

Definition closed_object (properties : list (string * json)) : json :=
  JObj [("type", JStr "object"); ("properties", JObj properties);
        ("additionalProperties", JBool false)].

(** A schema fragment in the shape a compute collector declares: a list of
    rules, each naming host aggregates or availability zones to include, or
    resources to exclude. *)
Definition compute_schema : json :=
  array_of
    (closed_object
       [("host_aggregates", array_of (JObj []));
        ("availability_zones", array_of (JObj []));
        ("exclude",
          array_of
            (closed_object
               [("instances", array_of (JObj []));
                ("compute_nodes", array_of (JObj []));
                ("host_aggregates", array_of (JObj []))]))]).

(** Two collectors; only the first declares a [SCHEMA]. *)
Definition collectors : gmap string collector :=
  <["compute" := {| SCHEMA := Some compute_schema |}]>
    (<["storage" := {| SCHEMA := None |}]> ∅).

Definition agg (name : string) : json := JObj [("name", JStr name)].

Definition template (goal : string) (strategy : option string) (scope : json)
  : AuditTemplatePostType.t :=
  {| AuditTemplatePostType.name := "at1";
     AuditTemplatePostType.description := None;
     AuditTemplatePostType.goal := goal;
     AuditTemplatePostType.strategy := strategy;
     AuditTemplatePostType.scope := scope |}.

(** A request naming the goal by its name and the strategy by its uuid, and
    the template [validate] turns it into. *)
Definition posted : AuditTemplatePostType.t :=
  template "server_consolidation" (Some "cb3d0b58-4415-4d90-b75b-1e96878730e3")
    (JArr []).

Definition stored : AuditTemplatePostType.t :=
  template "fc087747-61be-4aad-8126-b701731ae836"
    (Some "cb3d0b58-4415-4d90-b75b-1e96878730e3") (JArr []).

(** [[{"compute": rules}]]. *)
Definition compute_scope (rules : list json) : json :=
  JArr [JObj [("compute", JArr rules)]].

(** One rule that includes host aggregates and, under [exclude], excludes
    them. *)
Definition both_in_one_rule : json :=
  JObj [("host_aggregates", JArr [agg "agg1"]);
        ("exclude", JArr [JObj [("host_aggregates", JArr [agg "agg1"])]])].

(** The same two selectors in two rules. *)
Definition include_rule : json :=
  JObj [("host_aggregates", JArr [agg "agg1"])].

Definition exclude_rule : json :=
  JObj [("exclude", JArr [JObj [("host_aggregates", JArr [agg "agg1"])]])].

(** Stand-ins for the shape tests and the catalog reads, for the examples:
    a number is an id, a string of 36 characters is a uuid and any other
    string is a name. *)
Definition is_uuid_like (v : json) : bool :=
  match v with
  | JStr s => Nat.eqb (String.length s) 36
  | _ => false
  end.

Definition is_int_like (v : json) : bool :=
  match v with
  | JNum _ => true
  | _ => false
  end.

Definition found {A} (missing : exn) (o : option A) : result A :=
  match o with
  | Some x => Ok x
  | None => Raise missing
  end.

Definition Goal_get (v : json) : result Goal.t :=
  found GoalNotFound
    (match v with
     | JNum i => List.find (fun g => Z.eqb (Goal.id g) i) goals
     | JStr s => List.find (fun g => String.eqb (Goal.uuid g) s) goals
     | _ => None
     end).

Definition Goal_get_by_name (v : json) : result Goal.t :=
  found GoalNotFound
    (match v with
     | JStr s => List.find (fun g => String.eqb (Goal.name g) s) goals
     | _ => None
     end).

Definition Strategy_get (v : json) : result Strategy.t :=
  found StrategyNotFound
    (match v with
     | JNum i => List.find (fun x => Z.eqb (Strategy.id x) i) strategies
     | JStr s => List.find (fun x => String.eqb (Strategy.uuid x) s) strategies
     | _ => None
     end).

Definition Strategy_get_by_name (v : json) : result Strategy.t :=
  found StrategyNotFound
    (match v with
     | JStr s => List.find (fun x => String.eqb (Strategy.name x) s) strategies
     | _ => None
     end).

(** The stored Action of the object tests, with strings for field values. *)
Definition action_uuid : string := "10a47dd1-4874-4298-91cf-eff046dbdb8d".

Definition fake_action : gmap string string :=
  <["uuid" := action_uuid]>
    (<["action_type" := "nop"]> (<["state" := "PENDING"]> ∅)).

Definition action_store : Action.store string :=
  {| Action.rows := {[action_uuid := Action.mk_row fake_action false]};
     Action.calls := [] |}.

(** The object and the store after [Action.get_by_uuid]. *)
Definition action_read : Action.t string :=
  Action.of_row action_uuid (Action.mk_row fake_action false).

Definition action_store_read : Action.store string :=
  Action.called (Action.get_action_by_uuid action_uuid false) action_store.

End Samples.

(** * Properties *)

(** ** The result monad *)

Lemma rbind_Ok {A B} (r : result A) (k : A -> result B) (b : B) :
  rbind r k = Ok b -> exists a, r = Ok a /\ k a = Ok b.
Proof. destruct r as [a|e]; simpl; [eauto | discriminate]. Qed.

Lemma rbind_Raise {A B} (e : exn) (k : A -> result B) :
  rbind (Raise e) k = Raise e.
Proof. reflexivity. Qed.

(** ** Dict comprehensions *)

Section DictBy.

Context {A : Type} (key : A -> string).

Lemma dict_by_list_to_map (l : list A) :
  Py.dict_by key l = list_to_map ((fun x => (key x, x)) <$> reverse l).
Proof.
  unfold Py.dict_by.
  assert (G : forall m0 : gmap string A,
             foldl (fun m x => <[key x := x]> m) m0 l
             = foldr (fun (kx : string * A) m => <[kx.1 := kx.2]> m) m0
                 ((fun x => (key x, x)) <$> reverse l)).
  { induction l as [|x l IH]; intros m0; [reflexivity|].
    simpl. rewrite IH, reverse_cons, fmap_app, foldr_app. reflexivity. }
  rewrite G. reflexivity.
Qed.

(** What a lookup finds is an element of the list, filed under its key. *)
Lemma dict_by_lookup_Some (l : list A) (k : string) (x : A) :
  Py.dict_by key l !! k = Some x -> x ∈ l /\ key x = k.
Proof.
  rewrite dict_by_list_to_map. intros H.
  apply elem_of_list_to_map_2 in H.
  apply list_elem_of_fmap in H as (y & Hy & Hin).
  inversion Hy; subst. split; [|reflexivity].
  by apply elem_of_reverse.
Qed.

(** A key no element has is absent. *)
Lemma dict_by_lookup_None (l : list A) (k : string) :
  (forall x, x ∈ l -> key x <> k) -> Py.dict_by key l !! k = None.
Proof.
  intros H. destruct (Py.dict_by key l !! k) as [x|] eqn:E; [|reflexivity].
  apply dict_by_lookup_Some in E as [Hin Hk]. by apply H in Hin.
Qed.

(** When keys are unique every element is found under its own key. *)
Lemma dict_by_lookup_elem (l : list A) (x : A) :
  NoDup (key <$> l) -> x ∈ l -> Py.dict_by key l !! key x = Some x.
Proof.
  intros Hnd Hin. rewrite dict_by_list_to_map.
  apply elem_of_list_to_map_1.
  - rewrite <- list_fmap_compose.
    replace (fst ∘ (fun y => (key y, y))) with key by reflexivity.
    rewrite fmap_reverse, reverse_Permutation. exact Hnd.
  - apply list_elem_of_fmap. exists x. split; [reflexivity|].
    by apply elem_of_reverse.
Qed.

End DictBy.

(** ** Dicts kept as item lists *)

Lemma assoc_Some_elem (k : string) (m : list (string * json)) (v : json) :
  Py.assoc k m = Some v -> (k, v) ∈ m.
Proof.
  induction m as [|[k' v'] m IH]; simpl; [discriminate|].
  destruct (String.eqb_spec k k') as [->|Hne].
  - intros [= ->]. apply list_elem_of_here.
  - intros H. apply list_elem_of_further. auto.
Qed.

Lemma assoc_None_elem (k : string) (m : list (string * json)) (v : json) :
  Py.assoc k m = None -> (k, v) ∉ m.
Proof.
  induction m as [|[k' v'] m IH]; simpl; intros H Hin.
  - by apply not_elem_of_nil in Hin.
  - destruct (String.eqb_spec k k') as [->|Hne]; [discriminate|].
    apply elem_of_cons in Hin as [[= -> ->]|Hin]; [congruence|]. by apply IH.
Qed.

Lemma assoc_NoDup_elem (k : string) (m : list (string * json)) (v : json) :
  NoDup m.*1 -> (k, v) ∈ m -> Py.assoc k m = Some v.
Proof.
  induction m as [|[k' v'] m IH]; simpl; intros Hnd Hin.
  - by apply not_elem_of_nil in Hin.
  - apply NoDup_cons in Hnd as [Hk Hnd].
    apply elem_of_cons in Hin as [[= -> ->]|Hin].
    + by rewrite String.eqb_refl.
    + destruct (String.eqb_spec k k') as [->|Hne]; [|by apply IH].
      exfalso. apply Hk. apply list_elem_of_fmap. by exists (k', v).
Qed.

(** Reading a finite map through its item list gives the map's lookup. *)
Lemma assoc_map_to_list (k : string) (m : gmap string json) :
  Py.assoc k (map_to_list m) = m !! k.
Proof.
  destruct (m !! k) as [v|] eqn:E.
  - apply assoc_NoDup_elem; [apply NoDup_fst_map_to_list|].
    by apply elem_of_map_to_list.
  - destruct (Py.assoc k (map_to_list m)) as [v|] eqn:F; [|reflexivity].
    apply assoc_Some_elem, elem_of_map_to_list in F. congruence.
Qed.

(** ** Schema validation *)

Lemma is_valid_array (schema : json) (l : list json) :
  Draft4.is_valid schema (JArr l)
  = Draft4.type_ok schema (JArr l)
    && match Draft4.member schema "items" with
       | Some s => forallb (Draft4.is_valid s) l
       | None => true
       end.
Proof. reflexivity. Qed.

Lemma is_valid_object (schema : json) (m : list (string * json)) :
  Draft4.is_valid schema (JObj m)
  = Draft4.type_ok schema (JObj m)
    && forallb (fun kv => match Draft4.property schema kv.1 with
                          | Some s => Draft4.is_valid s kv.2
                          | None => Draft4.additional_allowed schema
                          end) m.
Proof. reflexivity. Qed.

Lemma forallb_false_elem {A} (f : A -> bool) (l : list A) (x : A) :
  x ∈ l -> f x = false -> forallb f l = false.
Proof.
  intros Hin Hf. destruct (forallb f l) eqn:E; [|reflexivity].
  rewrite forallb_forall in E. rewrite <- Hf. symmetry. apply E.
  by apply list_elem_of_In.
Qed.

(** An object with a member that [properties] does not list fails a schema
    that forbids additional properties. *)
Lemma is_valid_additional_property (schema : json) (m : list (string * json))
    (k : string) (v : json) :
  (k, v) ∈ m ->
  Draft4.property schema k = None ->
  Draft4.additional_allowed schema = false ->
  Draft4.is_valid schema (JObj m) = false.
Proof.
  intros Hin Hp Ha. rewrite is_valid_object.
  apply andb_false_iff. right.
  apply (forallb_false_elem _ _ (k, v)); [exact Hin|].
  simpl. by rewrite Hp.
Qed.

Module PostFacts.

Import AuditTemplatePostType.

Lemma build_schema_items (collectors : gmap string collector) :
  Draft4.member (_build_schema collectors) "items"
  = Some (items_schema collectors).
Proof. reflexivity. Qed.

Lemma get_schemas_lookup (collectors : gmap string collector) (k : string) :
  _get_schemas collectors !! k = collectors !! k ≫= SCHEMA.
Proof. unfold _get_schemas. apply lookup_omap. Qed.

Lemma items_schema_property (collectors : gmap string collector) (k : string) :
  Draft4.property (items_schema collectors) k = collectors !! k ≫= SCHEMA.
Proof.
  unfold Draft4.property, items_schema. simpl.
  rewrite assoc_map_to_list. apply get_schemas_lookup.
Qed.

Lemma declares_schema_iff (collectors : gmap string collector) (k : string) :
  is_Some (collectors !! k ≫= SCHEMA)
  <-> exists c, collectors !! k = Some c /\ is_Some (SCHEMA c).
Proof.
  destruct (collectors !! k) as [c|]; simpl.
  - split; [intros H; by exists c | intros (c' & [= <-] & H); exact H].
  - split; [intros [x Hx]; discriminate | intros (c' & Hc & _); discriminate].
Qed.

(** A scope document one of whose elements has a member outside the
    declared collectors does not pass the built schema. *)
Lemma build_schema_rejects (collectors : gmap string collector)
    (docs : list json) (m : list (string * json)) (k : string) (v : json) :
  JObj m ∈ docs -> (k, v) ∈ m ->
  collectors !! k ≫= SCHEMA = None ->
  Draft4.is_valid (_build_schema collectors) (JArr docs) = false.
Proof.
  intros Hdoc Hkv Hk.
  rewrite is_valid_array, build_schema_items.
  apply andb_false_iff. right.
  apply (forallb_false_elem _ _ (JObj m)); [exact Hdoc|].
  apply (is_valid_additional_property _ _ k v); [exact Hkv| |reflexivity].
  by rewrite items_schema_property.
Qed.

(** C4.  The schema [_build_schema] assembles gives each element of the
    scope document exactly the properties named after the registered
    collectors that declare a [SCHEMA] (a collector without one adds
    none) and forbids any other; so [validate] rejects every scope document
    with an element that has a member outside that set: with a schema
    validation error once the goal is resolved, and with the goal's error
    otherwise. *)
Theorem schema_allows_declaring_collectors_only
    (collectors : gmap string collector) :
  (exists items,
      Draft4.member (_build_schema collectors) "items" = Some items /\
      Draft4.additional_allowed items = false /\
      forall k, is_Some (Draft4.property items k)
                <-> exists c, collectors !! k = Some c /\ is_Some (SCHEMA c)) /\
  forall (available_goals : list Goal.t)
         (available_strategies : list Strategy.t) (audit_template : t)
         (docs : list json) (m : list (string * json)) (k : string) (v : json),
    scope audit_template = JArr docs ->
    JObj m ∈ docs -> (k, v) ∈ m ->
    (~ exists c, collectors !! k = Some c /\ is_Some (SCHEMA c)) ->
    match resolve_goal available_goals (goal audit_template) with
    | Ok _ =>
        validate available_goals available_strategies collectors audit_template
        = Raise ValidationError
    | Raise e =>
        validate available_goals available_strategies collectors audit_template
        = Raise e
    end.
Proof.
  split.
  - exists (items_schema collectors).
    split; [apply build_schema_items|]. split; [reflexivity|].
    intros k. rewrite items_schema_property. apply declares_schema_iff.
  - intros goals strategies tpl docs m k v Hscope Hdoc Hkv Hout.
    unfold validate.
    destruct (resolve_goal goals (goal tpl)) as [g|e]; [|reflexivity].
    simpl. rewrite Hscope.
    assert (Hne : Py.truthy (JArr docs) = true).
    { destruct docs; [by apply not_elem_of_nil in Hdoc | reflexivity]. }
    rewrite Hne. unfold check_scope, Draft4.validate.
    rewrite (build_schema_rejects collectors docs m k v Hdoc Hkv).
    + reflexivity.
    + destruct (collectors !! k ≫= SCHEMA) eqn:E; [|reflexivity].
      exfalso. apply Hout. apply declares_schema_iff. rewrite E. eauto.
Qed.

(** The registry of the examples has a [storage] collector without a
    [SCHEMA]; a scope element naming it is turned down. *)
Lemma schema_allows_declaring_collectors_only_witness :
  validate Samples.goals Samples.strategies Samples.collectors
    (Samples.template "server_consolidation" None
       (JArr [JObj [("storage", JArr [])]]))
  = Raise ValidationError.
Proof.
  apply (proj2 (schema_allows_declaring_collectors_only Samples.collectors)
           Samples.goals Samples.strategies
           (Samples.template "server_consolidation" None
              (JArr [JObj [("storage", JArr [])]]))
           [JObj [("storage", JArr [])]] [("storage", JArr [])]
           "storage" (JArr [])).
  - reflexivity.
  - apply list_elem_of_here.
  - apply list_elem_of_here.
  - intros (c & Hc & Hs). vm_compute in Hc.
    inversion Hc; subst c. destruct Hs as [x Hx]. discriminate Hx.
Defined.

(** *** Goal and strategy resolution *)

Lemma resolve_goal_Ok (available_goals : list Goal.t) (s : string) (g : Goal.t) :
  resolve_goal available_goals s = Ok g ->
  g ∈ available_goals /\ (Goal.uuid g = s \/ Goal.name g = s).
Proof.
  unfold resolve_goal.
  destruct (Py.dict_by Goal.uuid available_goals !! s) as [g1|] eqn:E1.
  - intros [= <-]. apply dict_by_lookup_Some in E1 as [? ?]. auto.
  - destruct (Py.dict_by Goal.name available_goals !! s) as [g2|] eqn:E2;
      [|discriminate].
    intros [= <-]. apply dict_by_lookup_Some in E2 as [? ?]. auto.
Qed.

(** In a catalog where uuids are unique, names are unique and no name is
    also some goal's uuid, a goal's uuid and its name resolve to that goal. *)
Lemma resolve_goal_uuid_name (available_goals : list Goal.t) (g : Goal.t) :
  NoDup (Goal.uuid <$> available_goals) ->
  NoDup (Goal.name <$> available_goals) ->
  (forall g', g' ∈ available_goals -> Goal.uuid g' <> Goal.name g) ->
  g ∈ available_goals ->
  resolve_goal available_goals (Goal.uuid g) = Ok g /\
  resolve_goal available_goals (Goal.name g) = Ok g.
Proof.
  intros Hu Hn Hsep Hin. unfold resolve_goal. split.
  - by rewrite (dict_by_lookup_elem Goal.uuid _ g Hu Hin).
  - rewrite (dict_by_lookup_None Goal.uuid _ (Goal.name g) Hsep).
    by rewrite (dict_by_lookup_elem Goal.name _ g Hn Hin).
Qed.

(** The strategy is looked up among the uuids only: a value that is no
    strategy's uuid is turned down, whether or not it is a strategy's name. *)
Lemma check_strategy_not_a_uuid (available_strategies : list Strategy.t)
    (g : Goal.t) (s : string) :
  s <> "" ->
  (forall x, x ∈ available_strategies -> Strategy.uuid x <> s) ->
  check_strategy available_strategies g (Some s)
  = Raise (InvalidStrategy (JStr s)).
Proof.
  intros Hs Hno. unfold check_strategy.
  destruct (String.eqb_spec s "") as [->|_]; [congruence|]. simpl.
  by rewrite (dict_by_lookup_None Strategy.uuid _ s Hno).
Qed.

(** The choices of the error message are built from every available
    strategy. *)
Lemma check_strategy_incompatible (available_strategies : list Strategy.t)
    (g : Goal.t) (s : string) (x : Strategy.t) :
  s <> "" ->
  Py.dict_by Strategy.uuid available_strategies !! s = Some x ->
  Strategy.goal_id x <> Goal.id g ->
  check_strategy available_strategies g (Some s)
  = Raise (InvalidStrategy_message
             (incompatible_message x g (map choice available_strategies))).
Proof.
  intros Hs Hx Hg. unfold check_strategy.
  destruct (String.eqb_spec s "") as [->|_]; [congruence|]. simpl.
  rewrite Hx. destruct (Z.eqb_spec (Strategy.goal_id x) (Goal.id g)); [lia|].
  reflexivity.
Qed.

Lemma check_strategy_Ok (available_strategies : list Strategy.t) (g : Goal.t)
    (given stored : option string) :
  check_strategy available_strategies g given = Ok stored ->
  (Py.truthy_text given = true ->
   exists x, x ∈ available_strategies /\ given = Some (Strategy.uuid x) /\
             Strategy.goal_id x = Goal.id g /\
             stored = Some (Strategy.uuid x)) /\
  (Py.truthy_text given = false -> stored = given).
Proof.
  unfold check_strategy, Py.truthy_text.
  destruct given as [s|]; [|intros [= <-]; split; [discriminate|reflexivity]].
  destruct (negb (String.eqb s "")) eqn:Et;
    [|intros [= <-]; split; [discriminate|reflexivity]].
  destruct (Py.dict_by Strategy.uuid available_strategies !! s) as [x|] eqn:Ex;
    [|discriminate].
  destruct (Z.eqb_spec (Strategy.goal_id x) (Goal.id g)) as [Hg|Hg];
    simpl; [|discriminate].
  intros [= <-]. split; [|discriminate]. intros _.
  apply dict_by_lookup_Some in Ex as [Hin Hk].
  exists x. rewrite Hk. auto.
Qed.

(** C5.  When [validate] succeeds, the template it hands back refers to the
    goal by the uuid of the goal the given identifier resolved to, and, when
    a strategy was given, to the strategy by the uuid of the catalog strategy
    it resolved to, which belongs to that goal; without a strategy the
    strategy attribute is as it was.  The other attributes are untouched. *)
Theorem validate_stores_uuids (available_goals : list Goal.t)
    (available_strategies : list Strategy.t)
    (collectors : gmap string collector) (audit_template validated : t) :
  validate available_goals available_strategies collectors audit_template
  = Ok validated ->
  exists g,
    resolve_goal available_goals (goal audit_template) = Ok g /\
    g ∈ available_goals /\
    goal validated = Goal.uuid g /\
    (Py.truthy_text (strategy audit_template) = true ->
     exists x, x ∈ available_strategies /\
               strategy audit_template = Some (Strategy.uuid x) /\
               Strategy.goal_id x = Goal.id g /\
               strategy validated = Some (Strategy.uuid x)) /\
    (Py.truthy_text (strategy audit_template) = false ->
     strategy validated = strategy audit_template) /\
    name validated = name audit_template /\
    description validated = description audit_template /\
    scope validated = scope audit_template.
Proof.
  unfold validate. intros H.
  apply rbind_Ok in H as (g & Hg & H).
  apply rbind_Ok in H as (u & _ & H).
  apply rbind_Ok in H as (stored & Hs & H).
  injection H as <-. simpl.
  exists g. split; [exact Hg|].
  split; [by apply resolve_goal_Ok in Hg as [? _]|].
  split; [reflexivity|].
  apply check_strategy_Ok in Hs as [Ht Hf]. auto.
Qed.

(** A template naming the goal by its name and the strategy by its uuid. *)
Lemma validate_stores_uuids_witness :
  exists g,
    resolve_goal Samples.goals (goal Samples.posted) = Ok g /\
    g ∈ Samples.goals /\
    goal Samples.stored = Goal.uuid g /\
    (Py.truthy_text (strategy Samples.posted) = true ->
     exists x, x ∈ Samples.strategies /\
               strategy Samples.posted = Some (Strategy.uuid x) /\
               Strategy.goal_id x = Goal.id g /\
               strategy Samples.stored = Some (Strategy.uuid x)) /\
    (Py.truthy_text (strategy Samples.posted) = false ->
     strategy Samples.stored = strategy Samples.posted) /\
    name Samples.stored = name Samples.posted /\
    description Samples.stored = description Samples.posted /\
    scope Samples.stored = scope Samples.posted.
Proof.
  apply (validate_stores_uuids Samples.goals Samples.strategies
           Samples.collectors Samples.posted Samples.stored).
  vm_compute. reflexivity.
Defined.

(** C1.  A strategy named by its uuid in a create request is resolved and
    its uuid stored, but the same strategy named by its name is turned down
    as an invalid strategy, whereas the patch validation resolves that very
    name to the strategy's id.  Goals resolve through either identifier
    ([resolve_goal_uuid_name]); the create request's strategy does not. *)
Theorem strategy_name_not_resolved_on_create :
  validate Samples.goals Samples.strategies Samples.collectors
    (Samples.template "server_consolidation"
       (Some (Strategy.uuid Samples.basic)) (JArr []))
  = Ok Samples.stored /\
  validate Samples.goals Samples.strategies Samples.collectors
    (Samples.template "server_consolidation"
       (Some (Strategy.name Samples.basic)) (JArr []))
  = Raise (InvalidStrategy (JStr "basic")) /\
  AuditTemplatePatchType.validate (fun patch => Ok patch)
    Samples.goals Samples.strategies
    (AuditTemplatePatchType.mk "/strategy" "replace" (Some (JStr "basic")))
  = Ok (AuditTemplatePatchType.mk "/strategy_id" "replace"
          (Some (JNum (Strategy.id Samples.basic)))).
Proof. vm_compute. auto. Qed.

(** C2.  For the goal [server_consolidation] and the strategy
    [outlet_temperature] of another goal, [validate] fails with the message
    whose choices are both strategies of the catalog, the rejected one
    included, although [basic] is the only strategy of that goal. *)
Theorem incompatible_choices_list_every_strategy :
  validate Samples.goals Samples.strategies Samples.collectors
    (Samples.template "server_consolidation"
       (Some (Strategy.uuid Samples.outlet_temperature)) (JArr []))
  = Raise (InvalidStrategy_message
             (incompatible_message Samples.outlet_temperature
                Samples.server_consolidation
                [choice Samples.basic; choice Samples.outlet_temperature])) /\
  filter (fun x => Strategy.goal_id x = Goal.id Samples.server_consolidation)
    Samples.strategies
  = [Samples.basic].
Proof. vm_compute. auto. Qed.

(** *** The host-aggregates check *)

(** A rule that carries [host_aggregates] is counted as an include rule and
    its [exclude] member, if any, is not looked at. *)
Lemma scan_rules_include_skips_exclude (m : list (string * json))
    (rest : list json) (inc exc : bool) :
  Py.has_key "host_aggregates" m = true ->
  scan_rules (JObj m :: rest) inc exc = scan_rules rest true exc.
Proof. intros H. simpl. rewrite H. reflexivity. Qed.

(** A rule without [host_aggregates] whose [exclude] list has an object
    carrying [host_aggregates] raises the exclude flag. *)
Lemma scan_resources_found (before after : list json)
    (m : list (string * json)) (exc : bool) :
  Forall (fun r => exists m', r = JObj m') (before ++ after) ->
  Py.has_key "host_aggregates" m = true ->
  scan_resources (before ++ JObj m :: after) exc = Ok true.
Proof.
  intros Hall Hm.
  assert (Htail : forall l, Forall (fun r => exists m', r = JObj m') l ->
                            scan_resources l true = Ok true).
  { induction l as [|r l IH]; [reflexivity|].
    intros Hl. apply Forall_cons in Hl as [(m' & ->) Hl]. simpl.
    destruct (Py.has_key "host_aggregates" m'); auto. }
  revert exc Hall. induction before as [|r before IH]; intros exc Hall; simpl.
  - rewrite Hm. by apply Htail.
  - apply Forall_cons in Hall as [(m' & ->) Hall]. simpl. by apply IH.
Qed.

(** A scope document whose only compute rule carries [host_aggregates]
    passes the check once it passes the schema, whatever the rule excludes. *)
Lemma check_scope_single_include_rule (collectors : gmap string collector)
    (m : list (string * json)) :
  Py.has_key "host_aggregates" m = true ->
  Draft4.is_valid (_build_schema collectors) (Samples.compute_scope [JObj m])
  = true ->
  check_scope collectors (Samples.compute_scope [JObj m]) = Ok tt.
Proof.
  intros Hm Hv. unfold check_scope, Draft4.validate. rewrite Hv.
  simpl. rewrite Hm. reflexivity.
Qed.

(** C3.  A scope document whose single compute rule carries both
    [host_aggregates] and an [exclude] list naming [host_aggregates] passes
    [validate], while the same two selectors written as two rules are
    rejected. *)
Theorem include_and_exclude_in_one_rule_accepted :
  validate Samples.goals Samples.strategies Samples.collectors
    (Samples.template "server_consolidation" None
       (Samples.compute_scope [Samples.both_in_one_rule]))
  = Ok (Samples.template "fc087747-61be-4aad-8126-b701731ae836" None
          (Samples.compute_scope [Samples.both_in_one_rule])) /\
  validate Samples.goals Samples.strategies Samples.collectors
    (Samples.template "server_consolidation" None
       (Samples.compute_scope [Samples.include_rule; Samples.exclude_rule]))
  = Raise (Invalid "host_aggregates can't be included and excluded together").
Proof. vm_compute. auto. Qed.

End PostFacts.

(** ** Patch validation *)

Module PatchFacts.

Import AuditTemplatePatchType.

Lemma lookup_id_unmatched {A} (ident : A -> Z) (uuid name : A -> string)
    (l : list A) (invalid : json -> exn) (s : string) :
  (forall x, x ∈ l -> uuid x <> s /\ name x <> s) ->
  lookup_id ident (Py.dict_by uuid l) (Py.dict_by name l) invalid (JStr s)
  = Raise (invalid (JStr s)).
Proof.
  intros H. unfold lookup_id. simpl.
  rewrite (dict_by_lookup_None uuid l s) by (intros x Hx; by apply H).
  rewrite (dict_by_lookup_None name l s) by (intros x Hx; by apply H).
  rewrite !bool_decide_eq_false_2 by (intros [? ?]; discriminate).
  reflexivity.
Qed.

Lemma lookup_id_by_uuid {A} (ident : A -> Z) (uuids names : gmap string A)
    (invalid : json -> exn) (s : string) (x : A) :
  uuids !! s = Some x ->
  lookup_id ident uuids names invalid (JStr s) = Ok (ident x).
Proof.
  intros H. unfold lookup_id. simpl. rewrite H.
  rewrite bool_decide_eq_true_2 by eauto. reflexivity.
Qed.

Lemma lookup_id_by_name {A} (ident : A -> Z) (uuids names : gmap string A)
    (invalid : json -> exn) (s : string) (x : A) :
  uuids !! s = None -> names !! s = Some x ->
  lookup_id ident uuids names invalid (JStr s) = Ok (ident x).
Proof.
  intros Hu Hn. unfold lookup_id. simpl. rewrite Hu, Hn.
  rewrite bool_decide_eq_false_2 by (intros [? ?]; discriminate).
  rewrite bool_decide_eq_true_2 by eauto. reflexivity.
Qed.

(** A list or a dict as the new value cannot be looked up at all. *)
Lemma lookup_id_unhashable {A} (ident : A -> Z) (uuids names : gmap string A)
    (invalid : json -> exn) (v : json) :
  (exists l, v = JArr l) \/ (exists m, v = JObj m) ->
  lookup_id ident uuids names invalid v = Raise TypeError.
Proof. intros [[l ->]|[m ->]]; reflexivity. Qed.

Lemma truthy_nonempty (s : string) : s <> "" -> Py.truthy (JStr s) = true.
Proof. intros H. simpl. by destruct (String.eqb_spec s ""). Qed.

Section Base.

Variable JsonPatchType_validate : t -> result t.

(** A value that is false ([Unset], an empty string, zero, ...) is not
    looked up: the patch goes on to the base class check with only its path
    rewritten. *)
Lemma validate_goal_false_value (available_goals : list Goal.t)
    (available_strategies : list Strategy.t) (patch : t) :
  path patch = "/goal" -> op patch <> "remove" ->
  Py.truthy_attr (value patch) = false ->
  validate JsonPatchType_validate available_goals available_strategies patch
  = JsonPatchType_validate (set_path "/goal_id" patch).
Proof.
  intros Hp Ho Hv. unfold validate. rewrite Hp. simpl.
  destruct (String.eqb_spec (op patch) "remove") as [|_]; [contradiction|].
  simpl. unfold _validate_goal. simpl.
  destruct (value patch) as [v|]; simpl in *; [rewrite Hv|]; reflexivity.
Qed.

(** A value that can be a dict key and that is the uuid or the name of no
    entry is reported through [invalid]: a string by the two failed lookups,
    a number or a boolean because the keys are strings. *)
Lemma lookup_id_unmatched_value {A} (ident : A -> Z) (uuid name : A -> string)
    (l : list A) (invalid : json -> exn) (v : json) :
  Py.hashable v = true ->
  (forall x, x ∈ l -> v <> JStr (uuid x) /\ v <> JStr (name x)) ->
  lookup_id ident (Py.dict_by uuid l) (Py.dict_by name l) invalid v
  = Raise (invalid v).
Proof.
  intros Hh H. destruct v as [| | |s| |]; try reflexivity; try discriminate Hh.
  apply lookup_id_unmatched. intros x Hx. destruct (H x Hx) as [Hu Hn].
  split; intros <-; [by apply Hu|by apply Hn].
Qed.

(** The same for [/strategy], whatever the operation. *)
Lemma validate_strategy_false_value (available_goals : list Goal.t)
    (available_strategies : list Strategy.t) (patch : t) :
  path patch = "/strategy" ->
  Py.truthy_attr (value patch) = false ->
  validate JsonPatchType_validate available_goals available_strategies patch
  = JsonPatchType_validate (set_path "/strategy_id" patch).
Proof.
  intros Hp Hv. unfold validate. rewrite Hp. simpl. rewrite Hp. simpl.
  unfold _validate_strategy. simpl.
  destruct (value patch) as [v|]; simpl in *; [rewrite Hv|]; reflexivity.
Qed.

(** A true value on [/goal] is looked up and the base class check sees the
    id found. *)
Lemma validate_goal_true_value (available_goals : list Goal.t)
    (available_strategies : list Strategy.t) (patch : t) (v : json) :
  path patch = "/goal" -> op patch <> "remove" ->
  value patch = Some v -> Py.truthy v = true ->
  validate JsonPatchType_validate available_goals available_strategies patch
  = (i <- lookup_id Goal.id (Py.dict_by Goal.uuid available_goals)
            (Py.dict_by Goal.name available_goals) InvalidGoal v ;;
     JsonPatchType_validate (mk "/goal_id" (op patch) (Some (JNum i)))).
Proof.
  intros Hp Ho Hv Ht. unfold validate. rewrite Hp. simpl.
  destruct (String.eqb_spec (op patch) "remove") as [|_]; [contradiction|].
  simpl. unfold _validate_goal. simpl. rewrite Hv, Ht.
  destruct (lookup_id _ _ _ _ _); reflexivity.
Qed.

Lemma validate_strategy_true_value (available_goals : list Goal.t)
    (available_strategies : list Strategy.t) (patch : t) (v : json) :
  path patch = "/strategy" ->
  value patch = Some v -> Py.truthy v = true ->
  validate JsonPatchType_validate available_goals available_strategies patch
  = (i <- lookup_id Strategy.id
            (Py.dict_by Strategy.uuid available_strategies)
            (Py.dict_by Strategy.name available_strategies)
            InvalidStrategy v ;;
     JsonPatchType_validate (mk "/strategy_id" (op patch) (Some (JNum i)))).
Proof.
  intros Hp Hv Ht. unfold validate. rewrite Hp. simpl. rewrite Hp. simpl.
  unfold _validate_strategy. simpl. rewrite Hv, Ht.
  destruct (lookup_id _ _ _ _ _); reflexivity.
Qed.

(** C6, as amended.  Removing [/goal] fails with the operation-not-permitted
    error.  A patch on [/goal] with another operation, or on [/strategy],
    whose value is true and is a string, a number or a boolean has the value
    looked up among the uuids and then among the names: when it is neither,
    validation fails with [InvalidGoal], respectively [InvalidStrategy],
    carrying that value; when it is one of them, the patch goes on to the
    base class check with the path [/goal_id], respectively [/strategy_id],
    and the numeric id as its value.  A patch whose value is false is not
    looked up: it goes on to the base class check with only its path
    rewritten. *)
Theorem patch_validate_resolves (available_goals : list Goal.t)
    (available_strategies : list Strategy.t) (patch : t) :
  (path patch = "/goal" -> op patch = "remove" ->
   validate JsonPatchType_validate available_goals available_strategies patch
   = Raise (OperationNotPermitted remove_goal_message)) /\
  (forall v, path patch = "/goal" -> op patch <> "remove" ->
             value patch = Some v ->
             Py.truthy v = true -> Py.hashable v = true ->
     ((forall g, g ∈ available_goals ->
                 v <> JStr (Goal.uuid g) /\ v <> JStr (Goal.name g)) ->
      validate JsonPatchType_validate available_goals available_strategies patch
      = Raise (InvalidGoal v)) /\
     (forall s g, v = JStr s ->
        AuditTemplatePostType.resolve_goal available_goals s = Ok g ->
        validate JsonPatchType_validate available_goals available_strategies
          patch
        = JsonPatchType_validate
            (mk "/goal_id" (op patch) (Some (JNum (Goal.id g)))))) /\
  (forall v, path patch = "/strategy" ->
             value patch = Some v ->
             Py.truthy v = true -> Py.hashable v = true ->
     ((forall x, x ∈ available_strategies ->
                 v <> JStr (Strategy.uuid x) /\ v <> JStr (Strategy.name x)) ->
      validate JsonPatchType_validate available_goals available_strategies patch
      = Raise (InvalidStrategy v)) /\
     (forall s x, v = JStr s ->
        Py.dict_by Strategy.uuid available_strategies !! s = Some x \/
        (Py.dict_by Strategy.uuid available_strategies !! s = None /\
         Py.dict_by Strategy.name available_strategies !! s = Some x) ->
        validate JsonPatchType_validate available_goals available_strategies
          patch
        = JsonPatchType_validate
            (mk "/strategy_id" (op patch) (Some (JNum (Strategy.id x)))))) /\
  (Py.truthy_attr (value patch) = false ->
   (path patch = "/goal" -> op patch <> "remove" ->
    validate JsonPatchType_validate available_goals available_strategies patch
    = JsonPatchType_validate (set_path "/goal_id" patch)) /\
   (path patch = "/strategy" ->
    validate JsonPatchType_validate available_goals available_strategies patch
    = JsonPatchType_validate (set_path "/strategy_id" patch))).
Proof.
  split; [|split; [|split]].
  - intros Hp Ho. unfold validate. rewrite Hp, Ho. reflexivity.
  - intros v Hp Ho Hv Ht Hh.
    rewrite (validate_goal_true_value _ _ _ v Hp Ho Hv Ht). split.
    + intros Hno.
      by rewrite (lookup_id_unmatched_value Goal.id Goal.uuid Goal.name).
    + intros s g -> Hg. unfold AuditTemplatePostType.resolve_goal in Hg.
      destruct (Py.dict_by Goal.uuid available_goals !! s) as [g1|] eqn:E1.
      * injection Hg as ->. by rewrite (lookup_id_by_uuid _ _ _ _ _ g E1).
      * destruct (Py.dict_by Goal.name available_goals !! s) as [g2|] eqn:E2;
          [|discriminate].
        injection Hg as ->. by rewrite (lookup_id_by_name _ _ _ _ _ g E1 E2).
  - intros v Hp Hv Ht Hh.
    rewrite (validate_strategy_true_value _ _ _ v Hp Hv Ht). split.
    + intros Hno.
      by rewrite (lookup_id_unmatched_value Strategy.id Strategy.uuid
                    Strategy.name).
    + intros s x -> [Hu|[Hu Hn]].
      * by rewrite (lookup_id_by_uuid _ _ _ _ _ x Hu).
      * by rewrite (lookup_id_by_name _ _ _ _ _ x Hu Hn).
  - intros Hv. split.
    + intros Hp Ho. by apply validate_goal_false_value.
    + intros Hp. by apply validate_strategy_false_value.
Qed.

(** A list or an object as the value of [/goal] cannot be looked up: the
    validation ends in a [TypeError] before the base class check. *)
Lemma validate_goal_unhashable (available_goals : list Goal.t)
    (available_strategies : list Strategy.t) (patch : t) (v : json) :
  path patch = "/goal" -> op patch <> "remove" ->
  value patch = Some v -> Py.truthy v = true -> Py.hashable v = false ->
  validate JsonPatchType_validate available_goals available_strategies patch
  = Raise TypeError.
Proof.
  intros Hp Ho Hv Ht Hh.
  rewrite (validate_goal_true_value _ _ _ v Hp Ho Hv Ht).
  destruct v; try discriminate Hh; reflexivity.
Qed.

End Base.

Lemma patch_validate_resolves_witness :
  validate (fun patch => Ok patch) Samples.goals Samples.strategies
    (mk "/goal" "remove" None)
  = Raise (OperationNotPermitted remove_goal_message) /\
  validate (fun patch => Ok patch) Samples.goals Samples.strategies
    (mk "/goal" "replace" (Some (JStr "no_such_goal")))
  = Raise (InvalidGoal (JStr "no_such_goal")) /\
  validate (fun patch => Ok patch) Samples.goals Samples.strategies
    (mk "/goal" "replace" (Some (JStr "thermal_optimization")))
  = Ok (mk "/goal_id" "replace" (Some (JNum 2))) /\
  validate (fun patch => Ok patch) Samples.goals Samples.strategies
    (mk "/strategy" "add" (Some (JNum 7)))
  = Raise (InvalidStrategy (JNum 7)) /\
  validate (fun patch => Ok patch) Samples.goals Samples.strategies
    (mk "/goal" "replace" (Some (JStr "")))
  = Ok (mk "/goal_id" "replace" (Some (JStr ""))).
Proof.
  split; [|split; [|split; [|split]]].
  - apply (proj1 (patch_validate_resolves (fun patch => Ok patch)
                    Samples.goals Samples.strategies
                    (mk "/goal" "remove" None))); reflexivity.
  - apply (proj1 (proj1 (proj2 (patch_validate_resolves (fun patch => Ok patch)
                    Samples.goals Samples.strategies
                    (mk "/goal" "replace" (Some (JStr "no_such_goal")))))
                  (JStr "no_such_goal") eq_refl ltac:(discriminate) eq_refl
                  eq_refl eq_refl)).
    intros g Hg. unfold Samples.goals in Hg.
    apply elem_of_cons in Hg as [->|Hg]; [split; discriminate|].
    apply elem_of_cons in Hg as [->|Hg]; [split; discriminate|].
    by apply not_elem_of_nil in Hg.
  - apply (proj2 (proj1 (proj2 (patch_validate_resolves (fun patch => Ok patch)
                    Samples.goals Samples.strategies
                    (mk "/goal" "replace"
                       (Some (JStr "thermal_optimization")))))
                  (JStr "thermal_optimization") eq_refl ltac:(discriminate)
                  eq_refl eq_refl eq_refl)
             "thermal_optimization" Samples.thermal_optimization eq_refl).
    vm_compute. reflexivity.
  - apply (proj1 (proj1 (proj2 (proj2 (patch_validate_resolves
                    (fun patch => Ok patch)
                    Samples.goals Samples.strategies
                    (mk "/strategy" "add" (Some (JNum 7))))))
                  (JNum 7) eq_refl eq_refl eq_refl eq_refl)).
    intros x Hx. split; discriminate.
  - apply (proj1 (proj2 (proj2 (proj2 (patch_validate_resolves
                    (fun patch => Ok patch)
                    Samples.goals Samples.strategies
                    (mk "/goal" "replace" (Some (JStr ""))))))
                  eq_refl));
      [reflexivity|discriminate].
Defined.

(** C6 as stated fails, whatever the base class check does.  The empty
    string and the list [["server_consolidation"]] are the uuid or the name
    of no goal of the catalog; yet a patch replacing [/goal] by the empty
    string is not looked up and is handed to the base class check with only
    its path rewritten, and one replacing it by the list ends in a
    [TypeError], not in [InvalidGoal].  So for no base class check does every
    unmatched value end in [InvalidGoal]. *)
Lemma unmatched_goal_value_not_invalid_goal :
  (forall g, g ∈ Samples.goals ->
     (JStr "" <> JStr (Goal.uuid g) /\ JStr "" <> JStr (Goal.name g)) /\
     (JArr [JStr "server_consolidation"] <> JStr (Goal.uuid g) /\
      JArr [JStr "server_consolidation"] <> JStr (Goal.name g))) /\
  (forall JsonPatchType_validate,
     validate JsonPatchType_validate Samples.goals Samples.strategies
       (mk "/goal" "replace" (Some (JStr "")))
     = JsonPatchType_validate (mk "/goal_id" "replace" (Some (JStr "")))) /\
  (forall JsonPatchType_validate,
     validate JsonPatchType_validate Samples.goals Samples.strategies
       (mk "/goal" "replace" (Some (JArr [JStr "server_consolidation"])))
     = Raise TypeError) /\
  (forall JsonPatchType_validate,
     ~ forall patch v,
         path patch = "/goal" -> op patch <> "remove" ->
         value patch = Some v ->
         (forall g, g ∈ Samples.goals ->
                    v <> JStr (Goal.uuid g) /\ v <> JStr (Goal.name g)) ->
         validate JsonPatchType_validate Samples.goals Samples.strategies patch
         = Raise (InvalidGoal v)).
Proof.
  assert (Hlist : forall base,
             validate base Samples.goals Samples.strategies
               (mk "/goal" "replace"
                  (Some (JArr [JStr "server_consolidation"])))
             = Raise TypeError).
  { intros base.
    apply (validate_goal_unhashable base _ _ _
             (JArr [JStr "server_consolidation"]));
      [reflexivity|discriminate|reflexivity|reflexivity|reflexivity]. }
  split; [|split; [|split]].
  - intros g Hg. unfold Samples.goals in Hg.
    apply elem_of_cons in Hg as [->|Hg]; [repeat split; discriminate|].
    apply elem_of_cons in Hg as [->|Hg]; [repeat split; discriminate|].
    by apply not_elem_of_nil in Hg.
  - intros base.
    apply (validate_goal_false_value base Samples.goals Samples.strategies
             (mk "/goal" "replace" (Some (JStr ""))));
      [reflexivity|discriminate|reflexivity].
  - exact Hlist.
  - intros base Hclaim.
    specialize (Hclaim (mk "/goal" "replace"
                          (Some (JArr [JStr "server_consolidation"])))
                  (JArr [JStr "server_consolidation"])
                  eq_refl ltac:(discriminate) eq_refl).
    rewrite Hlist in Hclaim.
    assert (Hn : Raise (A:=t) TypeError
                 = Raise (InvalidGoal (JArr [JStr "server_consolidation"]))).
    { apply Hclaim. intros g Hg. split; discriminate. }
    discriminate Hn.
Qed.

End PatchFacts.

(** ** The API wrapper *)

Module WrapperFacts.

Import AuditTemplate.

Section Lookups.

Variables is_uuid_like is_int_like : json -> bool.
Variables Goal_get Goal_get_by_name : json -> result Goal.t.
Variables Strategy_get Strategy_get_by_name : json -> result Strategy.t.

Local Abbreviation find_goal :=
  (find_goal is_uuid_like is_int_like Goal_get Goal_get_by_name).
Local Abbreviation find_strategy :=
  (find_strategy is_uuid_like is_int_like Strategy_get Strategy_get_by_name).
Local Abbreviation _set_goal_uuid :=
  (_set_goal_uuid is_uuid_like is_int_like Goal_get Goal_get_by_name).
Local Abbreviation _set_goal_name :=
  (_set_goal_name is_uuid_like is_int_like Goal_get Goal_get_by_name).
Local Abbreviation _set_strategy_uuid :=
  (_set_strategy_uuid is_uuid_like is_int_like Strategy_get
     Strategy_get_by_name).
Local Abbreviation _set_strategy_name :=
  (_set_strategy_name is_uuid_like is_int_like Strategy_get
     Strategy_get_by_name).

(** A false value ([Unset], the empty string, ...) or the value the
    attribute already holds leaves the object alone. *)
Lemma setter_guard_false (self : t) (value : option json) :
  guard (_goal_uuid self) value = false ->
  _set_goal_uuid self value = Ok self.
Proof. intros H. unfold AuditTemplate._set_goal_uuid. by rewrite H. Qed.

(** A found goal is cached: its uuid in [_goal_uuid], its id in [goal_id]. *)
Lemma set_goal_uuid_found (self : t) (v : json) (g : Goal.t) :
  guard (_goal_uuid self) (Some v) = true ->
  find_goal v = Ok g ->
  _set_goal_uuid self (Some v)
  = Ok (set__goal_uuid (Some (Goal.uuid g))
          (set_goal_id (Some (JNum (Goal.id g))) (set__goal_uuid None self))).
Proof.
  intros Hg Hf. unfold AuditTemplate._set_goal_uuid, _get_goal.
  rewrite Hg, Hf. reflexivity.
Qed.

(** The four setters when the catalog read finds nothing. *)
Lemma set_goal_uuid_not_found (self : t) (v : json) :
  find_goal v = Raise GoalNotFound ->
  _set_goal_uuid self (Some v)
  = Ok (if guard (_goal_uuid self) (Some v)
        then set__goal_uuid None self else self).
Proof.
  intros H. unfold AuditTemplate._set_goal_uuid, _get_goal.
  destruct (guard _ _); [|reflexivity]. by rewrite H.
Qed.

Lemma set_goal_name_not_found (self : t) (v : json) :
  find_goal v = Raise GoalNotFound ->
  _set_goal_name self (Some v)
  = Ok (if guard (_goal_name self) (Some v)
        then set__goal_name None self else self).
Proof.
  intros H. unfold AuditTemplate._set_goal_name, _get_goal.
  destruct (guard _ _); [|reflexivity]. by rewrite H.
Qed.

Lemma set_strategy_uuid_not_found (self : t) (v : json) :
  find_strategy v = Raise StrategyNotFound ->
  _set_strategy_uuid self (Some v)
  = Ok (if guard (_strategy_uuid self) (Some v)
        then set__strategy_uuid None self else self).
Proof.
  intros H. unfold AuditTemplate._set_strategy_uuid, _get_strategy.
  destruct (guard _ _); [|reflexivity]. by rewrite H.
Qed.

Lemma set_strategy_name_not_found (self : t) (v : json) :
  find_strategy v = Raise StrategyNotFound ->
  _set_strategy_name self (Some v)
  = Ok (if guard (_strategy_name self) (Some v)
        then set__strategy_name None self else self).
Proof.
  intros H. unfold AuditTemplate._set_strategy_name, _get_strategy.
  destruct (guard _ _); [|reflexivity]. by rewrite H.
Qed.

(** C10.  Setting [goal_uuid] or [goal_name] with an identifier for which
    the catalog read raises [GoalNotFound], and likewise [strategy_uuid] or
    [strategy_name] with one for which it raises [StrategyNotFound], raises
    nothing: the setter returns, and whenever it went to the catalog (the
    value is true and differs from the cached attribute, as on every newly
    built wrapper) the attribute is [None] afterwards and the numeric id is
    as before; otherwise the object is unchanged. *)
Theorem unknown_identifier_dropped (self : t) (v : json) :
  (find_goal v = Raise GoalNotFound ->
   _set_goal_uuid self (Some v)
   = Ok (if guard (_goal_uuid self) (Some v)
         then set__goal_uuid None self else self) /\
   _set_goal_name self (Some v)
   = Ok (if guard (_goal_name self) (Some v)
         then set__goal_name None self else self)) /\
  (find_strategy v = Raise StrategyNotFound ->
   _set_strategy_uuid self (Some v)
   = Ok (if guard (_strategy_uuid self) (Some v)
         then set__strategy_uuid None self else self) /\
   _set_strategy_name self (Some v)
   = Ok (if guard (_strategy_name self) (Some v)
         then set__strategy_name None self else self)).
Proof.
  split; intros H; split.
  - by apply set_goal_uuid_not_found.
  - by apply set_goal_name_not_found.
  - by apply set_strategy_uuid_not_found.
  - by apply set_strategy_name_not_found.
Qed.

(** A wrapper built from identifiers the catalog does not know is built
    without an exception and caches nothing. *)
Lemma init_unknown_identifiers (g s : json) :
  find_goal g = Raise GoalNotFound ->
  find_strategy s = Raise StrategyNotFound ->
  __init__ is_uuid_like is_int_like Goal_get Goal_get_by_name
    Strategy_get Strategy_get_by_name (Some g) (Some s)
  = Ok (set_strategy_id (Some s) fresh).
Proof.
  intros Hg Hs. unfold __init__.
  rewrite (set_goal_uuid_not_found _ g Hg).
  replace (if guard _ (Some g) then _ else _)
    with (set_strategy_id (Some s) fresh) by (by destruct (guard _ _)).
  simpl. rewrite (set_goal_name_not_found _ g Hg).
  replace (if guard _ (Some g) then _ else _)
    with (set_strategy_id (Some s) fresh) by (by destruct (guard _ _)).
  simpl. rewrite (set_strategy_uuid_not_found _ s Hs).
  replace (if guard _ (Some s) then _ else _)
    with (set_strategy_id (Some s) fresh) by (by destruct (guard _ _)).
  simpl. rewrite (set_strategy_name_not_found _ s Hs).
  by destruct (guard _ _).
Qed.

End Lookups.

(** On a newly built wrapper an unknown goal name and an unknown strategy
    uuid leave the four attributes [None]. *)
Lemma unknown_identifier_dropped_witness :
  (_set_goal_uuid Samples.is_uuid_like Samples.is_int_like
     Samples.Goal_get Samples.Goal_get_by_name fresh
     (Some (JStr "no_such_goal")) = Ok fresh /\
   _set_goal_name Samples.is_uuid_like Samples.is_int_like
     Samples.Goal_get Samples.Goal_get_by_name fresh
     (Some (JStr "no_such_goal")) = Ok fresh) /\
  (_set_strategy_uuid Samples.is_uuid_like Samples.is_int_like
     Samples.Strategy_get Samples.Strategy_get_by_name fresh
     (Some (JStr "no_such_goal")) = Ok fresh /\
   _set_strategy_name Samples.is_uuid_like Samples.is_int_like
     Samples.Strategy_get Samples.Strategy_get_by_name fresh
     (Some (JStr "no_such_goal")) = Ok fresh).
Proof.
  split.
  - apply (proj1 (unknown_identifier_dropped Samples.is_uuid_like
                    Samples.is_int_like Samples.Goal_get
                    Samples.Goal_get_by_name Samples.Strategy_get
                    Samples.Strategy_get_by_name fresh
                    (JStr "no_such_goal"))).
    reflexivity.
  - apply (proj2 (unknown_identifier_dropped Samples.is_uuid_like
                    Samples.is_int_like Samples.Goal_get
                    Samples.Goal_get_by_name Samples.Strategy_get
                    Samples.Strategy_get_by_name fresh
                    (JStr "no_such_goal"))).
    reflexivity.
Defined.

End WrapperFacts.

(** ** The Action object *)

Module ActionFacts.

Section Object.

Context {V : Type} `{EqDecision V}.
Variable DELETED : V.

Implicit Types (st : Action.store V) (o : Action.t V) (u k : string) (v : V).

Lemma get_by_uuid_Ok st u (eager show_deleted : bool) o st1 :
  Action.get_by_uuid st u eager show_deleted = Ok (o, st1) ->
  exists r, Action.rows st !! u = Some r /\
            Action.visible show_deleted r = true /\
            o = Action.of_row u r /\
            st1 = Action.called (Action.get_action_by_uuid u eager) st.
Proof.
  unfold Action.get_by_uuid.
  destruct (Action.rows st !! u) as [r|]; [|discriminate].
  destruct (Action.visible show_deleted r) eqn:Hv; [|discriminate].
  intros [= <- <-]. by exists r.
Qed.

Lemma setattrs_uuid_snapshot o (assignments : list (string * V)) :
  Action.uuid (Action.setattrs o assignments) = Action.uuid o /\
  Action.snapshot (Action.setattrs o assignments) = Action.snapshot o.
Proof.
  revert o. induction assignments as [|[k v] l IH]; intros o; [done|].
  simpl. destruct (IH (Action.setattr o k v)) as [-> ->]. done.
Qed.

(** A field is sent exactly when the object has it with a value other than
    the snapshot's. *)
Lemma obj_get_changes_lookup o k v :
  Action.obj_get_changes o !! k = Some v
  <-> Action.fields o !! k = Some v /\ Action.snapshot o !! k <> Some v.
Proof.
  unfold Action.obj_get_changes. rewrite map_lookup_filter_Some. simpl. tauto.
Qed.

Lemma obj_get_changes_unchanged o k :
  Action.fields o !! k = Action.snapshot o !! k ->
  Action.obj_get_changes o !! k = None.
Proof.
  intros E. destruct (Action.obj_get_changes o !! k) as [v|] eqn:F; [|done].
  apply obj_get_changes_lookup in F as [F1 F2]. congruence.
Qed.

(** Membership in a listing. *)
Lemma elem_of_list st (eager show_deleted : bool) o :
  o ∈ (Action.list st eager show_deleted).1
  <-> exists r, Action.rows st !! Action.uuid o = Some r /\
                Action.visible show_deleted r = true /\
                o = Action.of_row (Action.uuid o) r.
Proof.
  unfold Action.list. simpl. rewrite list_elem_of_In, in_map_iff. split.
  - intros ([u r] & <- & Hin). apply list_elem_of_In in Hin.
    apply list_elem_of_filter in Hin as [Hv Hin].
    apply elem_of_map_to_list in Hin. simpl in *. by exists r.
  - intros (r & Hr & Hv & Ho). exists (Action.uuid o, r). split; [done|].
    apply list_elem_of_In, list_elem_of_filter. split; [done|].
    by apply elem_of_map_to_list.
Qed.

(** C7.  For an Action read by uuid and then changed in memory by any run
    of assignments, [save] reaches the database with one update for that
    uuid, and the update holds a field exactly when the object now has it
    with a value other than the one read; a field whose value is the one
    read is absent.  Assigning only [state] a new value gives the update
    with [state] alone. *)
Theorem save_sends_changed_fields st u (eager show_deleted : bool) o st1
    (assignments : list (string * V)) :
  Action.get_by_uuid st u eager show_deleted = Ok (o, st1) ->
  exists saved st2 updates,
    Action.save (Action.setattrs o assignments) st1 = Ok (saved, st2) /\
    Action.calls st2
    = (Action.calls st ++ [Action.get_action_by_uuid u eager;
                           Action.update_action u updates])%list /\
    (forall k v,
        updates !! k = Some v
        <-> Action.fields (Action.setattrs o assignments) !! k = Some v /\
            Action.fields o !! k <> Some v) /\
    (forall k,
        Action.fields (Action.setattrs o assignments) !! k
        = Action.fields o !! k ->
        updates !! k = None) /\
    (forall v, assignments = [("state", v)] ->
               Action.fields o !! "state" <> Some v ->
               updates = {["state" := v]}).
Proof.
  intros Hget. apply get_by_uuid_Ok in Hget as (r & Hr & _ & -> & ->).
  set (o' := Action.setattrs (Action.of_row u r) assignments).
  destruct (setattrs_uuid_snapshot (Action.of_row u r) assignments)
    as [Hu Hs]. fold o' in Hu, Hs. simpl in Hu, Hs.
  assert (Hchar : forall k v,
             Action.obj_get_changes o' !! k = Some v
             <-> Action.fields o' !! k = Some v /\
                 Action.values r !! k <> Some v).
  { intros k v. rewrite obj_get_changes_lookup, Hs. done. }
  eexists _, _, (Action.obj_get_changes o').
  split; [|split; [|split; [|split]]].
  - unfold Action.save, Action.write. rewrite Hu. simpl. rewrite Hr. simpl.
    reflexivity.
  - simpl. by rewrite <- app_assoc.
  - exact Hchar.
  - intros k Hk. apply obj_get_changes_unchanged. by rewrite Hs.
  - intros v -> Hne. apply map_eq. intros k. apply option_eq. intros w.
    rewrite Hchar, lookup_singleton_Some. subst o'. simpl.
    destruct (decide (k = "state")) as [->|Hk].
    + rewrite lookup_insert_eq. split.
      * intros [[= ->] _]. done.
      * intros [_ <-]. done.
    + rewrite lookup_insert_ne by done. split; [tauto|].
      intros [? _]. congruence.
Qed.

(** C8.  For an Action read by uuid, [soft_delete] reaches the database with
    the update [{state: DELETED}] and the soft-delete call; afterwards the
    object's state is [DELETED], a default [get] or listing no longer shows
    the record, and one that asks for deleted records still does, in state
    [DELETED].  [destroy] removes the record: no [get] and no listing shows
    it, with or without deleted records. *)
Theorem soft_delete_hides_destroy_removes st u (eager show_deleted : bool)
    o st1 :
  Action.get_by_uuid st u eager show_deleted = Ok (o, st1) ->
  (exists gone st2,
      Action.soft_delete DELETED o st1 = Ok (gone, st2) /\
      Action.calls st2
      = (Action.calls st1 ++ [Action.update_action u {["state" := DELETED]};
                              Action.soft_delete_action u])%list /\
      Action.fields gone !! "state" = Some DELETED /\
      (forall e, Action.get_by_uuid st2 u e false = Raise ActionNotFound) /\
      (forall e x, x ∈ (Action.list st2 e false).1 -> Action.uuid x <> u) /\
      (forall e, exists kept st3,
          Action.get_by_uuid st2 u e true = Ok (kept, st3) /\
          Action.fields kept !! "state" = Some DELETED) /\
      (forall e, exists kept,
          kept ∈ (Action.list st2 e true).1 /\ Action.uuid kept = u /\
          Action.fields kept !! "state" = Some DELETED)) /\
  (exists st2,
      Action.destroy o st1 = Ok st2 /\
      Action.calls st2
      = (Action.calls st1 ++ [Action.destroy_action u])%list /\
      (forall e sd, Action.get_by_uuid st2 u e sd = Raise ActionNotFound) /\
      (forall e sd x, x ∈ (Action.list st2 e sd).1 -> Action.uuid x <> u)).
Proof.
  intros Hget. apply get_by_uuid_Ok in Hget as (r & Hr & _ & -> & ->).
  set (st1 := Action.called (Action.get_action_by_uuid u eager) st).
  set (vals := {["state" := DELETED]} ∪ Action.values r).
  assert (Hstate : vals !! "state" = Some DELETED).
  { unfold vals. rewrite lookup_union_l', lookup_singleton_eq; [done|].
    rewrite lookup_singleton_eq. eauto. }
  split.
  - set (st2 := {| Action.rows :=
                     <[u := Action.mk_row vals true]>
                       (<[u := Action.mk_row vals (Action.deleted r)]>
                          (Action.rows st));
                   Action.calls :=
                     (Action.calls st1
                        ++ [Action.update_action u {["state" := DELETED]}])
                       ++ [Action.soft_delete_action u] |}%list).
    assert (Hrow : Action.rows st2 !! u = Some (Action.mk_row vals true)).
    { unfold st2. simpl. by rewrite lookup_insert_eq. }
    exists {| Action.uuid := u;
              Action.fields := <["state" := DELETED]> (Action.values r);
              Action.snapshot := <["state" := DELETED]> (Action.values r) |},
           st2.
    split; [|split; [|split; [|split; [|split; [|split]]]]].
    + unfold Action.soft_delete, Action.write. simpl. rewrite Hr. simpl.
      rewrite lookup_insert_eq. reflexivity.
    + unfold st2. simpl. by rewrite <- app_assoc.
    + simpl. by rewrite lookup_insert_eq.
    + intros e. unfold Action.get_by_uuid. by rewrite Hrow.
    + intros e x Hx Hu. apply elem_of_list in Hx as (r' & Hr' & Hv & _).
      rewrite Hu, Hrow in Hr'. injection Hr' as <-. discriminate Hv.
    + intros e. eexists _, _. unfold Action.get_by_uuid. rewrite Hrow.
      simpl. split; [reflexivity|]. exact Hstate.
    + intros e. exists (Action.of_row u (Action.mk_row vals true)).
      split; [|split; [reflexivity|exact Hstate]].
      apply elem_of_list. exists (Action.mk_row vals true).
      split; [exact Hrow|]. split; reflexivity.
  - set (st2 := {| Action.rows := delete u (Action.rows st);
                   Action.calls :=
                     (Action.calls st1 ++ [Action.destroy_action u])%list |}).
    assert (Hrow : Action.rows st2 !! u = None).
    { unfold st2. simpl. by rewrite lookup_delete_eq. }
    exists st2. split; [|split; [reflexivity|split]].
    + unfold Action.destroy. simpl. rewrite Hr. reflexivity.
    + intros e sd. unfold Action.get_by_uuid. by rewrite Hrow.
    + intros e sd x Hx Hu. apply elem_of_list in Hx as (r' & Hr' & _).
      by rewrite Hu, Hrow in Hr'.
Qed.

End Object.

(** [test_save]: read, set the state to [SUCCEEDED], save; the database sees
    the read and one update with the state alone. *)
Lemma save_sends_changed_fields_witness :
  exists saved st2,
    Action.save (Action.setattrs Samples.action_read [("state", "SUCCEEDED")])
      Samples.action_store_read
    = Ok (saved, st2) /\
    Action.calls st2
    = [Action.get_action_by_uuid Samples.action_uuid false;
       Action.update_action Samples.action_uuid {["state" := "SUCCEEDED"]}].
Proof.
  destruct (save_sends_changed_fields Samples.action_store Samples.action_uuid
              false false Samples.action_read Samples.action_store_read
              [("state", "SUCCEEDED")] eq_refl)
    as (saved & st2 & updates & Hsave & Hcalls & _ & _ & Hstate).
  exists saved, st2. split; [exact Hsave|].
  rewrite Hcalls, (Hstate "SUCCEEDED" eq_refl); [reflexivity|].
  intros E. vm_compute in E. discriminate E.
Defined.

(** [test_soft_delete] and [test_destroy]: after the soft delete a default
    read fails and a read that asks for deleted records succeeds; after the
    destroy both fail. *)
Lemma soft_delete_hides_destroy_removes_witness :
  (exists gone st2,
      Action.soft_delete "DELETED" Samples.action_read Samples.action_store_read
      = Ok (gone, st2) /\
      Action.get_by_uuid st2 Samples.action_uuid false false
      = Raise ActionNotFound /\
      exists kept st3,
        Action.get_by_uuid st2 Samples.action_uuid false true
        = Ok (kept, st3) /\
        Action.fields kept !! "state" = Some "DELETED") /\
  (exists st2,
      Action.destroy Samples.action_read Samples.action_store_read = Ok st2 /\
      Action.get_by_uuid st2 Samples.action_uuid false true
      = Raise ActionNotFound).
Proof.
  destruct (soft_delete_hides_destroy_removes "DELETED" Samples.action_store
              Samples.action_uuid false false Samples.action_read
              Samples.action_store_read eq_refl)
    as [(gone & st2 & Hsoft & _ & _ & Hget & _ & Hkept & _)
        (st2' & Hdestroy & _ & Hget' & _)].
  split.
  - exists gone, st2. split; [exact Hsoft|]. split; [apply Hget|apply Hkept].
  - exists st2'. split; [exact Hdestroy|apply Hget'].
Defined.

End ActionFacts.

(** ** The decision engine's options *)

(** Unless configured otherwise the audit endpoint is built with two
    workers. *)
Lemma max_workers_default :
  DecisionEngineManager.int_default "max_workers"
    DecisionEngineManager.WATCHER_DECISION_ENGINE_OPTS
  = Some 2.
Proof. reflexivity. Qed.

(** * Further properties of the modelled code *)

(** ** Lookups in dict comprehensions and item lists *)

Lemma dict_by_lookup_is_Some {A} (key : A -> string) (l : list A) (x : A) :
  x ∈ l -> is_Some (Py.dict_by key l !! key x).
Proof.
  intros Hin. destruct (Py.dict_by key l !! key x) as [y|] eqn:E; [eauto|].
  exfalso. rewrite dict_by_list_to_map in E.
  apply not_elem_of_list_to_map_2 in E. apply E.
  apply list_elem_of_fmap. exists (key x, x). split; [reflexivity|].
  apply list_elem_of_fmap. exists x. split; [reflexivity|].
  by apply elem_of_reverse.
Qed.

Lemma has_key_assoc (k : string) (m : list (string * json)) :
  Py.has_key k m = match Py.assoc k m with Some _ => true | None => false end.
Proof.
  induction m as [|[k' v] m IH]; [reflexivity|].
  unfold Py.has_key in *. simpl.
  destruct (String.eqb k k'); [reflexivity|exact IH].
Qed.

Lemma forallb_elem {A} (f : A -> bool) (l : list A) :
  forallb f l = true <-> forall x, x ∈ l -> f x = true.
Proof.
  rewrite forallb_forall. split; intros H x Hx; apply H;
    by apply list_elem_of_In.
Qed.

(** ** Create requests *)

Module PostExtras.

Import AuditTemplatePostType ScopeRules.

(** *** What the scope loop can raise *)

Lemma scan_resources_raises (resources : list json) (exc : bool) (e : exn) :
  scan_resources resources exc = Raise e -> e = TypeError.
Proof.
  revert exc. induction resources as [|r rs IH]; intros exc; [discriminate|].
  simpl. destruct r; simpl; try (by intros [= <-]); apply IH.
Qed.

Lemma scan_rules_raises (rules : list json) (inc exc : bool) (e : exn) :
  scan_rules rules inc exc = Raise e -> e = TypeError.
Proof.
  revert inc exc. induction rules as [|r rs IH]; intros inc exc; [discriminate|].
  simpl. destruct r as [| | |s|l|m]; simpl; try (by intros [= <-]).
  - destruct (Py.is_substring "host_aggregates" s); [apply IH|].
    destruct (Py.is_substring "exclude" s); [by intros [= <-]|apply IH].
  - destruct (existsb (Py.is_str "host_aggregates") l); [apply IH|].
    destruct (existsb (Py.is_str "exclude") l); [by intros [= <-]|apply IH].
  - destruct (Py.has_key "host_aggregates" m); [apply IH|].
    rewrite (has_key_assoc "exclude" m).
    destruct (Py.assoc "exclude" m) as [ex|]; [|apply IH]. simpl.
    destruct (Py.iter ex) as [resources|e'] eqn:Ei; simpl.
    + destruct (scan_resources resources exc) as [exc'|e'] eqn:Es; simpl.
      * apply IH.
      * intros [= <-]. by apply scan_resources_raises in Es.
    + intros [= <-]. destruct ex; simpl in Ei; congruence.
Qed.

Lemma check_scope_raises (collectors : gmap string collector) (scope : json)
    (e : exn) :
  Py.truthy scope = true ->
  check_scope collectors scope = Raise e ->
  e = ValidationError \/ e = KeyError (JStr "compute") \/ e = TypeError \/
  e = Invalid conflict_message.
Proof.
  intros Ht. unfold check_scope, Draft4.validate.
  destruct (Draft4.is_valid (_build_schema collectors) scope) eqn:Hv;
    [|intros [= <-]; auto].
  simpl. destruct scope as [| | | |docs|]; try discriminate Hv.
  destruct docs as [|first rest]; [discriminate Ht|]. simpl.
  rewrite is_valid_array, PostFacts.build_schema_items in Hv.
  apply andb_prop in Hv as [_ Hv]. simpl in Hv.
  apply andb_prop in Hv as [Hfirst _].
  destruct first as [| | | | |m]; try discriminate Hfirst. simpl.
  destruct (Py.assoc "compute" m) as [compute|]; [|intros [= <-]; auto].
  simpl. destruct (Py.iter compute) as [rules|e'] eqn:Ei; simpl.
  - destruct (scan_rules rules false false) as [flags|e'] eqn:Es; simpl.
    + destruct (flags.1 && flags.2); [intros [= <-]; auto|discriminate].
    + intros [= <-]. apply scan_rules_raises in Es. auto.
  - intros [= <-]. destruct compute; simpl in Ei; try discriminate Ei;
      injection Ei as <-; auto.
Qed.

Lemma check_strategy_raises (available_strategies : list Strategy.t)
    (g : Goal.t) (given : option string) (e : exn) :
  check_strategy available_strategies g given = Raise e ->
  (exists s, given = Some s /\ e = InvalidStrategy (JStr s)) \/
  (exists message, e = InvalidStrategy_message message).
Proof.
  unfold check_strategy. destruct given as [s|]; [|discriminate].
  destruct (negb (String.eqb s "")); [|discriminate].
  destruct (Py.dict_by Strategy.uuid available_strategies !! s) as [x|].
  - destruct (negb (Strategy.goal_id x =? Goal.id g)%Z); [|discriminate].
    intros [= <-]. right. eauto.
  - intros [= <-]. left. eauto.
Qed.

Lemma resolve_goal_raises (available_goals : list Goal.t) (s : string)
    (e : exn) :
  resolve_goal available_goals s = Raise e ->
  e = InvalidGoal (JStr s) /\
  forall g, g ∈ available_goals -> Goal.uuid g <> s /\ Goal.name g <> s.
Proof.
  unfold resolve_goal.
  destruct (Py.dict_by Goal.uuid available_goals !! s) as [g1|] eqn:E1;
    [discriminate|].
  destruct (Py.dict_by Goal.name available_goals !! s) as [g2|] eqn:E2;
    [discriminate|].
  intros [= <-]. split; [reflexivity|]. intros g Hg. split; intros <-.
  - destruct (dict_by_lookup_is_Some Goal.uuid _ g Hg). congruence.
  - destruct (dict_by_lookup_is_Some Goal.name _ g Hg). congruence.
Qed.

Lemma resolve_goal_unmatched (available_goals : list Goal.t) (s : string) :
  (forall g, g ∈ available_goals -> Goal.uuid g <> s /\ Goal.name g <> s) ->
  resolve_goal available_goals s = Raise (InvalidGoal (JStr s)).
Proof.
  intros H. unfold resolve_goal.
  rewrite (dict_by_lookup_None Goal.uuid _ s) by (intros g Hg; by apply H).
  by rewrite (dict_by_lookup_None Goal.name _ s) by (intros g Hg; by apply H).
Qed.

(** What [validate] raises once the goal is resolved. *)
Lemma validate_raises_after_goal (available_strategies : list Strategy.t)
    (collectors : gmap string collector) (audit_template : t) (g : Goal.t)
    (e : exn) :
  (_ <- (if Py.truthy (scope audit_template)
         then check_scope collectors (scope audit_template) else Ok tt) ;;
   strategy' <- check_strategy available_strategies g
                  (strategy audit_template) ;;
   Ok {| name := name audit_template;
         description := description audit_template;
         goal := Goal.uuid g; strategy := strategy';
         scope := scope audit_template |}) = Raise e ->
  e = ValidationError \/ e = KeyError (JStr "compute") \/ e = TypeError \/
  e = Invalid conflict_message \/
  (exists s, strategy audit_template = Some s /\ e = InvalidStrategy (JStr s)) \/
  (exists message, e = InvalidStrategy_message message).
Proof.
  destruct (Py.truthy (scope audit_template)) eqn:Ht.
  - destruct (check_scope collectors (scope audit_template)) as [u|e'] eqn:Ec;
      simpl.
    + destruct (check_strategy _ _ _) as [st|e'] eqn:Es; simpl; [discriminate|].
      intros [= <-]. apply check_strategy_raises in Es. tauto.
    + intros [= <-]. apply (check_scope_raises _ _ _ Ht) in Ec. tauto.
  - simpl. destruct (check_strategy _ _ _) as [st|e'] eqn:Es; simpl;
      [discriminate|].
    intros [= <-]. apply check_strategy_raises in Es. tauto.
Qed.

(** What the scope check raises once the document has passed the schema. *)
Lemma check_scope_raises_valid (collectors : gmap string collector)
    (scope : json) (e : exn) :
  Py.truthy scope = true ->
  Draft4.is_valid (_build_schema collectors) scope = true ->
  check_scope collectors scope = Raise e ->
  e = KeyError (JStr "compute") \/ e = TypeError \/
  e = Invalid conflict_message.
Proof.
  intros Ht Hv Hc.
  destruct (check_scope_raises _ _ _ Ht Hc) as [->|H]; [|exact H].
  unfold check_scope, Draft4.validate in Hc. rewrite Hv in Hc. simpl in Hc.
  destruct scope as [| | | |docs|]; try discriminate Hv.
  destruct docs as [|first rest]; [discriminate Ht|]. simpl in Hc.
  rewrite is_valid_array, PostFacts.build_schema_items in Hv.
  apply andb_prop in Hv as [_ Hv]. simpl in Hv.
  apply andb_prop in Hv as [Hfirst _].
  destruct first as [| | | | |m]; try discriminate Hfirst. simpl in Hc.
  destruct (Py.assoc "compute" m) as [compute|]; [|discriminate Hc].
  simpl in Hc. destruct (Py.iter compute) as [rules|e'] eqn:Ei; simpl in Hc.
  - destruct (scan_rules rules false false) as [flags|e'] eqn:Es; simpl in Hc.
    + destruct (flags.1 && flags.2); discriminate Hc.
    + injection Hc as Hc. apply scan_rules_raises in Es. congruence.
  - injection Hc as Hc. destruct compute; simpl in Ei; congruence.
Qed.

(** The exceptions of [validate] for a request whose scope is empty or has
    passed the schema validator: an invalid goal, a missing [compute] key, a type error
    from walking the rules, the host-aggregates conflict, an unknown strategy
    or an incompatible one; with the schema passed, reading [scope[0]] never
    ends in an [IndexError]. *)
Theorem validate_raises_once_schema_passed (available_goals : list Goal.t)
    (available_strategies : list Strategy.t)
    (collectors : gmap string collector) (audit_template : t) (e : exn) :
  (Py.truthy (scope audit_template) = true ->
   Draft4.validate (_build_schema collectors) (scope audit_template)
   = Ok tt) ->
  validate available_goals available_strategies collectors audit_template
  = Raise e ->
  e = InvalidGoal (JStr (goal audit_template)) \/
  e = KeyError (JStr "compute") \/ e = TypeError \/
  e = Invalid conflict_message \/
  (exists s, strategy audit_template = Some s /\ e = InvalidStrategy (JStr s)) \/
  (exists message, e = InvalidStrategy_message message).
Proof.
  intros Hpassed.
  assert (Hvalid : Py.truthy (scope audit_template) = true ->
                   Draft4.is_valid (_build_schema collectors)
                     (scope audit_template) = true).
  { intros Ht. specialize (Hpassed Ht). unfold Draft4.validate in Hpassed.
    by destruct (Draft4.is_valid _ _). }
  unfold validate.
  destruct (resolve_goal available_goals (goal audit_template)) as [g|e'] eqn:Eg.
  - simpl. destruct (Py.truthy (scope audit_template)) eqn:Ht.
    + destruct (check_scope collectors (scope audit_template)) as [u|e']
        eqn:Ec; simpl.
      * destruct (check_strategy _ _ _) as [st|e'] eqn:Es; simpl;
          [discriminate|].
        intros [= <-]. apply check_strategy_raises in Es. tauto.
      * intros [= <-].
        apply (check_scope_raises_valid _ _ _ Ht (Hvalid eq_refl)) in Ec.
        tauto.
    + simpl. destruct (check_strategy _ _ _) as [st|e'] eqn:Es; simpl;
        [discriminate|].
      intros [= <-]. apply check_strategy_raises in Es. tauto.
  - simpl. intros [= <-]. apply resolve_goal_raises in Eg as [-> _]. auto.
Qed.

(** [validate] raises [InvalidGoal] exactly when the goal of the request is
    neither the uuid nor the name of an available goal, whatever the scope
    and the strategy are. *)
Theorem validate_invalid_goal_iff (available_goals : list Goal.t)
    (available_strategies : list Strategy.t)
    (collectors : gmap string collector) (audit_template : t) :
  validate available_goals available_strategies collectors audit_template
  = Raise (InvalidGoal (JStr (goal audit_template)))
  <-> forall g, g ∈ available_goals ->
                Goal.uuid g <> goal audit_template /\
                Goal.name g <> goal audit_template.
Proof.
  unfold validate. split.
  - destruct (resolve_goal available_goals (goal audit_template))
      as [g|e'] eqn:Eg.
    + simpl. intros H. apply validate_raises_after_goal in H.
      destruct H as [H|[H|[H|[H|[(s & _ & H)|(message & H)]]]]];
        discriminate H.
    + intros _. by apply resolve_goal_raises in Eg as [_ H].
  - intros H. by rewrite (resolve_goal_unmatched _ _ H).
Qed.

(** *** Validating twice *)

Lemma check_strategy_again (available_strategies : list Strategy.t)
    (g : Goal.t) (given stored : option string) :
  check_strategy available_strategies g given = Ok stored ->
  check_strategy available_strategies g stored = Ok stored.
Proof.
  unfold check_strategy. destruct given as [s|]; [|by intros [= <-]].
  destruct (negb (String.eqb s "")) eqn:Et; [|intros [= <-]; by rewrite Et].
  destruct (Py.dict_by Strategy.uuid available_strategies !! s) as [x|] eqn:Ex;
    [|discriminate].
  destruct (negb (Strategy.goal_id x =? Goal.id g)%Z) eqn:Eg; [discriminate|].
  intros [= <-].
  destruct (dict_by_lookup_Some Strategy.uuid _ _ _ Ex) as [_ Hk].
  rewrite Hk, Et, Ex, Eg. by rewrite Hk.
Qed.

(** With unique goal uuids, a template [validate] accepted is accepted again
    and comes back unchanged. *)
Theorem validate_idempotent (available_goals : list Goal.t)
    (available_strategies : list Strategy.t)
    (collectors : gmap string collector) (audit_template validated : t) :
  NoDup (Goal.uuid <$> available_goals) ->
  validate available_goals available_strategies collectors audit_template
  = Ok validated ->
  validate available_goals available_strategies collectors validated
  = Ok validated.
Proof.
  intros Hnd H. unfold validate in *.
  apply rbind_Ok in H as (g & Hg & H).
  apply rbind_Ok in H as ([] & Hs & H).
  apply rbind_Ok in H as (stored & Hst & H).
  injection H as <-. simpl.
  assert (Hin : g ∈ available_goals)
    by (by apply PostFacts.resolve_goal_Ok in Hg as [? _]).
  unfold resolve_goal at 1.
  rewrite (dict_by_lookup_elem Goal.uuid _ g Hnd Hin). simpl.
  rewrite Hs. simpl.
  by rewrite (check_strategy_again _ _ _ _ Hst).
Qed.

Lemma validate_idempotent_witness :
  validate Samples.goals Samples.strategies Samples.collectors Samples.stored
  = Ok Samples.stored.
Proof.
  apply (validate_idempotent Samples.goals Samples.strategies
           Samples.collectors Samples.posted Samples.stored).
  - unfold Samples.goals. simpl. apply NoDup_cons. split.
    + intros Hin. apply list_elem_of_singleton in Hin. discriminate Hin.
    + apply NoDup_singleton.
  - vm_compute. reflexivity.
Defined.

(** A schema-valid scope whose compute member is a number: walking it is a
    type error. *)
Lemma validate_raises_once_schema_passed_witness :
  TypeError = InvalidGoal (JStr "server_consolidation") \/
  TypeError = KeyError (JStr "compute") \/ TypeError = TypeError \/
  TypeError = Invalid conflict_message \/
  (exists s, @None string = Some s /\ TypeError = InvalidStrategy (JStr s)) \/
  (exists message, TypeError = InvalidStrategy_message message).
Proof.
  apply (validate_raises_once_schema_passed Samples.goals Samples.strategies
           (<["compute" := {| SCHEMA := Some (JObj []) |}]> ∅)
           (Samples.template "server_consolidation" None
              (JArr [JObj [("compute", JNum 1)]]))
           TypeError).
  - intros _. vm_compute. reflexivity.
  - vm_compute. reflexivity.
Defined.

(** In a catalog where uuids are unique, names are unique and no goal's uuid
    is the name of the goal asked for, that goal is what both its uuid and
    its name resolve to. *)
Lemma resolve_goal_uuid_name_witness :
  resolve_goal Samples.goals (Goal.uuid Samples.thermal_optimization)
  = Ok Samples.thermal_optimization /\
  resolve_goal Samples.goals (Goal.name Samples.thermal_optimization)
  = Ok Samples.thermal_optimization.
Proof.
  apply (PostFacts.resolve_goal_uuid_name Samples.goals
           Samples.thermal_optimization).
  - unfold Samples.goals. simpl. apply NoDup_cons. split.
    + intros Hin. apply list_elem_of_singleton in Hin. discriminate Hin.
    + apply NoDup_singleton.
  - unfold Samples.goals. simpl. apply NoDup_cons. split.
    + intros Hin. apply list_elem_of_singleton in Hin. discriminate Hin.
    + apply NoDup_singleton.
  - intros g Hg. unfold Samples.goals in Hg.
    apply elem_of_cons in Hg as [->|Hg]; [discriminate|].
    apply elem_of_cons in Hg as [->|Hg]; [discriminate|].
    by apply not_elem_of_nil in Hg.
  - unfold Samples.goals. apply list_elem_of_further, list_elem_of_here.
Defined.

(** *** The built schema *)

Lemma items_schema_valid_iff (collectors : gmap string collector) (d : json) :
  Draft4.is_valid (items_schema collectors) d = true
  <-> exists m, d = JObj m /\
        forall k v, (k, v) ∈ m ->
          exists c s, collectors !! k = Some c /\ SCHEMA c = Some s /\
                      Draft4.is_valid s v = true.
Proof.
  destruct d as [| | | | |m];
    try (split; [discriminate | intros (m' & Hm & _); discriminate Hm]).
  rewrite is_valid_object. simpl. rewrite forallb_elem. split.
  - intros H. exists m. split; [reflexivity|]. intros k v Hkv.
    specialize (H (k, v) Hkv). simpl in H.
    rewrite PostFacts.items_schema_property in H.
    destruct (collectors !! k) as [c|]; simpl in H; [|discriminate H].
    destruct (SCHEMA c) as [s|] eqn:Es; [|discriminate H]. by exists c, s.
  - intros (m' & [= <-] & H) [k v] Hkv.
    destruct (H k v Hkv) as (c & s & Hc & Hs & Hv). simpl.
    rewrite PostFacts.items_schema_property, Hc. simpl. by rewrite Hs.
Qed.

(** A document passes the built schema exactly when it is a list of objects
    whose every member is named after a collector that declares a [SCHEMA]
    and has a value valid for that [SCHEMA]. *)
Theorem build_schema_valid_iff (collectors : gmap string collector)
    (doc : json) :
  Draft4.is_valid (_build_schema collectors) doc = true
  <-> exists docs, doc = JArr docs /\
        forall d, d ∈ docs ->
          exists m, d = JObj m /\
            forall k v, (k, v) ∈ m ->
              exists c s, collectors !! k = Some c /\ SCHEMA c = Some s /\
                          Draft4.is_valid s v = true.
Proof.
  destruct doc as [| | | |docs|];
    try (split; [discriminate | intros (docs' & Hd & _); discriminate Hd]).
  rewrite is_valid_array, PostFacts.build_schema_items. simpl.
  rewrite forallb_elem. split.
  - intros H. exists docs. split; [reflexivity|]. intros d Hd.
    by apply items_schema_valid_iff, H.
  - intros (docs' & [= <-] & H) d Hd. by apply items_schema_valid_iff, H.
Qed.

(** Registering one more collector that declares no [SCHEMA] leaves the
    built schema as it was. *)
Theorem build_schema_collector_without_schema
    (collectors : gmap string collector) (k : string) (c : collector) :
  collectors !! k = None -> SCHEMA c = None ->
  _build_schema (<[k := c]> collectors) = _build_schema collectors.
Proof.
  intros Hk Hc. unfold _build_schema.
  replace (_get_schemas (<[k := c]> collectors))
    with (_get_schemas collectors); [reflexivity|].
  apply map_eq. intros i. rewrite !PostFacts.get_schemas_lookup.
  destruct (decide (k = i)) as [<-|Hne].
  - rewrite lookup_insert_eq, Hk. simpl. by rewrite Hc.
  - by rewrite lookup_insert_ne.
Qed.

Lemma build_schema_collector_without_schema_witness :
  _build_schema (<["storage" := {| SCHEMA := None |}]>
                   (<["compute" := {| SCHEMA := Some Samples.compute_schema |}]>
                      ∅))
  = _build_schema (<["compute" := {| SCHEMA := Some Samples.compute_schema |}]>
                     ∅).
Proof.
  apply (build_schema_collector_without_schema
           (<["compute" := {| SCHEMA := Some Samples.compute_schema |}]> ∅)
           "storage" {| SCHEMA := None |}); reflexivity.
Defined.

(** *** The scope check *)

(** A scope document that passes the schema but whose first element has no
    [compute] member makes [validate] end in a [KeyError], once the goal is
    resolved. *)
Theorem validate_scope_without_compute (available_goals : list Goal.t)
    (available_strategies : list Strategy.t)
    (collectors : gmap string collector) (audit_template : t)
    (g : Goal.t) (m : list (string * json)) (rest : list json) :
  resolve_goal available_goals (goal audit_template) = Ok g ->
  scope audit_template = JArr (JObj m :: rest) ->
  Draft4.is_valid (_build_schema collectors) (JArr (JObj m :: rest)) = true ->
  Py.assoc "compute" m = None ->
  validate available_goals available_strategies collectors audit_template
  = Raise (KeyError (JStr "compute")).
Proof.
  intros Hg Hs Hv Hc. unfold validate. rewrite Hg, Hs. simpl.
  unfold check_scope, Draft4.validate. rewrite Hv. simpl. by rewrite Hc.
Qed.

(** The empty object names no collector at all: it passes every schema and
    has no [compute] member. *)
Lemma validate_scope_without_compute_witness :
  validate Samples.goals Samples.strategies Samples.collectors
    (Samples.template "server_consolidation" None (JArr [JObj []]))
  = Raise (KeyError (JStr "compute")).
Proof.
  apply (validate_scope_without_compute Samples.goals Samples.strategies
           Samples.collectors
           (Samples.template "server_consolidation" None (JArr [JObj []]))
           Samples.server_consolidation [] []); reflexivity.
Defined.

(** Only the first element of the scope document is walked: the elements
    after it must pass the schema and are otherwise not looked at. *)
Theorem check_scope_first_element_only (collectors : gmap string collector)
    (first : json) (rest : list json) :
  Draft4.is_valid (_build_schema collectors) (JArr (first :: rest)) = true ->
  check_scope collectors (JArr (first :: rest))
  = check_scope collectors (JArr [first]).
Proof.
  intros Hv. unfold check_scope, Draft4.validate. rewrite Hv.
  rewrite is_valid_array in Hv |- *.
  rewrite PostFacts.build_schema_items in Hv |- *.
  apply andb_prop in Hv as [Ht Hv]. simpl in Hv.
  apply andb_prop in Hv as [Hfirst _].
  replace (Draft4.type_ok (_build_schema collectors) (JArr [first]))
    with true by reflexivity.
  simpl. rewrite Hfirst. reflexivity.
Qed.

(** A conflict in the second element goes unnoticed. *)
Lemma check_scope_first_element_only_witness :
  check_scope Samples.collectors
    (JArr [JObj [("compute", JArr [Samples.include_rule])];
           JObj [("compute", JArr [Samples.include_rule;
                                   Samples.exclude_rule])]])
  = check_scope Samples.collectors
      (JArr [JObj [("compute", JArr [Samples.include_rule])]]).
Proof.
  apply (check_scope_first_element_only Samples.collectors
           (JObj [("compute", JArr [Samples.include_rule])])
           [JObj [("compute", JArr [Samples.include_rule;
                                    Samples.exclude_rule])]]).
  vm_compute. reflexivity.
Defined.

Lemma scan_resources_objects (resources : list json) (exc : bool) :
  forallb is_object resources = true ->
  scan_resources resources exc
  = Ok (exc || existsb includes_host_aggregates resources).
Proof.
  revert exc. induction resources as [|r rs IH]; intros exc H; simpl.
  - by rewrite orb_false_r.
  - apply andb_prop in H as [Hr Hrs].
    destruct r as [| | | | |m]; try discriminate Hr. simpl.
    rewrite (IH _ Hrs).
    by destruct (Py.has_key "host_aggregates" m), exc.
Qed.

(** For rules of the shape a collector's schema gives them, the loop ends
    with the include flag raised by any include rule and the exclude flag
    raised by any exclude rule. *)
Lemma scan_rules_well_shaped (rules : list json) (inc exc : bool) :
  forallb well_shaped rules = true ->
  scan_rules rules inc exc
  = Ok (inc || existsb includes_host_aggregates rules,
        exc || existsb excludes_host_aggregates rules).
Proof.
  revert inc exc. induction rules as [|r rs IH]; intros inc exc H; simpl.
  - by rewrite !orb_false_r.
  - apply andb_prop in H as [Hr Hrs].
    destruct r as [| | | | |m]; try discriminate Hr. simpl in *.
    destruct (Py.has_key "host_aggregates" m) eqn:Hha; simpl.
    + rewrite (IH _ _ Hrs). by rewrite orb_true_r.
    + rewrite (has_key_assoc "exclude" m).
      destruct (Py.assoc "exclude" m) as [ex|]; simpl.
      * destruct ex as [| | | |resources|]; try discriminate Hr. simpl.
        rewrite (scan_resources_objects _ _ Hr). simpl.
        rewrite (IH _ _ Hrs). by rewrite orb_assoc.
      * by rewrite (IH _ _ Hrs).
Qed.

(** For a scope document that passes the schema and whose compute rules are
    well shaped, the document is turned down for a host-aggregates conflict
    exactly when some rule carries [host_aggregates] and some rule without
    [host_aggregates] excludes them; otherwise the check passes. *)
Theorem check_scope_host_aggregates (collectors : gmap string collector)
    (m : list (string * json)) (rest rules : list json) :
  Draft4.is_valid (_build_schema collectors) (JArr (JObj m :: rest)) = true ->
  Py.assoc "compute" m = Some (JArr rules) ->
  forallb well_shaped rules = true ->
  check_scope collectors (JArr (JObj m :: rest))
  = if existsb includes_host_aggregates rules
       && existsb excludes_host_aggregates rules
    then Raise (Invalid conflict_message)
    else Ok tt.
Proof.
  intros Hv Hc Hw. unfold check_scope, Draft4.validate. rewrite Hv. simpl.
  rewrite Hc. simpl. rewrite (scan_rules_well_shaped _ _ _ Hw). reflexivity.
Qed.

Lemma check_scope_host_aggregates_witness :
  check_scope Samples.collectors
    (Samples.compute_scope [Samples.include_rule; Samples.exclude_rule])
  = Raise (Invalid conflict_message) /\
  check_scope Samples.collectors
    (Samples.compute_scope [Samples.both_in_one_rule])
  = Ok tt.
Proof.
  split.
  - apply (check_scope_host_aggregates Samples.collectors
             [("compute", JArr [Samples.include_rule; Samples.exclude_rule])]
             [] [Samples.include_rule; Samples.exclude_rule]); reflexivity.
  - apply (check_scope_host_aggregates Samples.collectors
             [("compute", JArr [Samples.both_in_one_rule])]
             [] [Samples.both_in_one_rule]); reflexivity.
Defined.

End PostExtras.

(** ** Patches *)

Module PatchExtras.

Import AuditTemplatePatchType.

Lemma lookup_id_Ok {A} (ident : A -> Z) (uuid name : A -> string)
    (l : list A) (invalid : json -> exn) (v : json) (i : Z) :
  lookup_id ident (Py.dict_by uuid l) (Py.dict_by name l) invalid v = Ok i ->
  exists x s, v = JStr s /\ x ∈ l /\ i = ident x /\ (uuid x = s \/ name x = s).
Proof.
  unfold lookup_id. destruct v as [| | |s| |]; simpl; try discriminate.
  destruct (Py.dict_by uuid l !! s) as [x|] eqn:Eu.
  - rewrite bool_decide_eq_true_2 by eauto. simpl. intros [= <-].
    apply dict_by_lookup_Some in Eu as [Hin Hk]. exists x, s. auto.
  - rewrite bool_decide_eq_false_2 by (intros [? ?]; discriminate).
    destruct (Py.dict_by name l !! s) as [x|] eqn:En.
    + rewrite bool_decide_eq_true_2 by eauto. simpl. intros [= <-].
      apply dict_by_lookup_Some in En as [Hin Hk]. exists x, s. auto.
    + rewrite bool_decide_eq_false_2 by (intros [? ?]; discriminate).
      discriminate.
Qed.

Lemma validate_goal_Ok (available_goals : list Goal.t) (patch prepared : t) :
  _validate_goal available_goals patch = Ok prepared ->
  op prepared = op patch /\ path prepared = "/goal_id" /\
  ((value prepared = value patch /\ Py.truthy_attr (value patch) = false) \/
   exists g s, g ∈ available_goals /\ value patch = Some (JStr s) /\
               (Goal.uuid g = s \/ Goal.name g = s) /\
               value prepared = Some (JNum (Goal.id g))).
Proof.
  unfold _validate_goal. simpl. destruct (value patch) as [v|] eqn:Ev.
  - destruct (Py.truthy v) eqn:Et.
    + destruct (lookup_id _ _ _ _ _) as [i|e] eqn:El; [|discriminate].
      simpl. intros [= <-]. simpl. split; [done|]. split; [done|]. right.
      apply lookup_id_Ok in El as (g & s & -> & Hin & -> & Hk).
      by exists g, s.
    + intros [= <-]. simpl. rewrite Ev. auto.
  - intros [= <-]. simpl. rewrite Ev. auto.
Qed.

Lemma validate_strategy_Ok (available_strategies : list Strategy.t)
    (patch prepared : t) :
  _validate_strategy available_strategies patch = Ok prepared ->
  op prepared = op patch /\ path prepared = "/strategy_id" /\
  ((value prepared = value patch /\ Py.truthy_attr (value patch) = false) \/
   exists x s, x ∈ available_strategies /\ value patch = Some (JStr s) /\
               (Strategy.uuid x = s \/ Strategy.name x = s) /\
               value prepared = Some (JNum (Strategy.id x))).
Proof.
  unfold _validate_strategy. simpl. destruct (value patch) as [v|] eqn:Ev.
  - destruct (Py.truthy v) eqn:Et.
    + destruct (lookup_id _ _ _ _ _) as [i|e] eqn:El; [|discriminate].
      simpl. intros [= <-]. simpl. split; [done|]. split; [done|]. right.
      apply lookup_id_Ok in El as (x & s & -> & Hin & -> & Hk).
      by exists x, s.
    + intros [= <-]. simpl. rewrite Ev. auto.
  - intros [= <-]. simpl. rewrite Ev. auto.
Qed.

(** The base class check is the last step: it sees the patch the two blocks
    before it prepared, or is not reached. *)
Lemma validate_then_base (JsonPatchType_validate : t -> result t)
    (available_goals : list Goal.t) (available_strategies : list Strategy.t)
    (patch : t) :
  validate JsonPatchType_validate available_goals available_strategies patch
  = (prepared <- validate (fun q => Ok q) available_goals
                   available_strategies patch ;;
     JsonPatchType_validate prepared).
Proof.
  unfold validate.
  destruct (if String.eqb (path patch) "/goal"
               && negb (String.eqb (op patch) "remove")
            then _ else _) as [p1|e]; [|reflexivity].
  simpl. destruct (if String.eqb (path p1) "/strategy" then _ else _);
    reflexivity.
Qed.

(** What the base class check receives: the operation is the request's; the
    path is [/goal_id] for [/goal], [/strategy_id] for [/strategy] and the
    request's otherwise; the value is the numeric id of an available goal
    (strategy) that the request named by uuid or by name, or else the
    request's own value, which for these two paths is then a false one. *)
Theorem validate_prepares (available_goals : list Goal.t)
    (available_strategies : list Strategy.t) (patch prepared : t) :
  validate (fun q => Ok q) available_goals available_strategies patch
  = Ok prepared ->
  op prepared = op patch /\
  (path patch = "/goal" ->
   op patch <> "remove" /\ path prepared = "/goal_id" /\
   ((value prepared = value patch /\ Py.truthy_attr (value patch) = false) \/
    exists g s, g ∈ available_goals /\ value patch = Some (JStr s) /\
                (Goal.uuid g = s \/ Goal.name g = s) /\
                value prepared = Some (JNum (Goal.id g)))) /\
  (path patch = "/strategy" ->
   path prepared = "/strategy_id" /\
   ((value prepared = value patch /\ Py.truthy_attr (value patch) = false) \/
    exists x s, x ∈ available_strategies /\ value patch = Some (JStr s) /\
                (Strategy.uuid x = s \/ Strategy.name x = s) /\
                value prepared = Some (JNum (Strategy.id x)))) /\
  (path patch <> "/goal" -> path patch <> "/strategy" -> prepared = patch) /\
  forall JsonPatchType_validate,
    validate JsonPatchType_validate available_goals available_strategies patch
    = JsonPatchType_validate prepared.
Proof.
  intros H.
  assert (Hbase : forall base,
             validate base available_goals available_strategies patch
             = base prepared).
  { intros base. by rewrite validate_then_base, H. }
  unfold validate in H.
  destruct (String.eqb_spec (path patch) "/goal") as [Hg|Hg]; simpl in H.
  - destruct (String.eqb_spec (op patch) "remove") as [Ho|Ho]; simpl in H;
      [discriminate|].
    destruct (_validate_goal available_goals patch) as [p1|e] eqn:E1;
      [|discriminate].
    simpl in H. apply validate_goal_Ok in E1 as (Hop & Hpath & Hval).
    rewrite Hpath in H. simpl in H. injection H as <-.
    split; [done|]. split; [done|]. split; [|split; [|done]].
    + intros Hs. rewrite Hg in Hs. discriminate Hs.
    + intros Hne. by destruct Hne.
  - destruct (String.eqb_spec (path patch) "/strategy") as [Hs|Hs]; simpl in H.
    + destruct (_validate_strategy available_strategies patch) as [p2|e]
        eqn:E2; [|discriminate].
      simpl in H. injection H as <-.
      apply validate_strategy_Ok in E2 as (Hop & Hpath & Hval).
      split; [done|]. split; [intros Hg'; by destruct Hg|].
      split; [done|]. split; [|done]. intros _ Hne. by destruct Hne.
    + injection H as <-. split; [done|].
      split; [intros Hg'; by destruct Hg|].
      split; [intros Hs'; by destruct Hs|]. done.
Qed.

Lemma validate_prepares_witness :
  validate (fun q => Raise TypeError) Samples.goals Samples.strategies
    (mk "/strategy" "replace" (Some (JStr "outlet_temperature")))
  = Raise TypeError.
Proof.
  apply (proj2 (proj2 (proj2 (proj2
           (validate_prepares Samples.goals Samples.strategies
              (mk "/strategy" "replace" (Some (JStr "outlet_temperature")))
              (mk "/strategy_id" "replace" (Some (JNum 2)))
              eq_refl))))
           (fun q => Raise TypeError)).
Defined.

Section Base.

Variable JsonPatchType_validate : t -> result t.

(** A patch whose value is false ([Unset], as for a remove, or an empty
    string, zero, null, an empty list) is not looked up: its path is
    rewritten and it goes on to the base class check with its value. *)
Theorem validate_false_value (available_goals : list Goal.t)
    (available_strategies : list Strategy.t) (patch : t) :
  Py.truthy_attr (value patch) = false ->
  (path patch = "/goal" -> op patch <> "remove" ->
   validate JsonPatchType_validate available_goals available_strategies patch
   = JsonPatchType_validate (set_path "/goal_id" patch)) /\
  (path patch = "/strategy" ->
   validate JsonPatchType_validate available_goals available_strategies patch
   = JsonPatchType_validate (set_path "/strategy_id" patch)).
Proof.
  intros Hv. split.
  - intros Hp Ho. by apply PatchFacts.validate_goal_false_value.
  - intros Hp. unfold validate. rewrite Hp. simpl. rewrite Hp. simpl.
    unfold _validate_strategy. simpl.
    destruct (value patch) as [v|]; simpl in *; [rewrite Hv|]; reflexivity.
Qed.

(** A value that is true but not a string is never resolved: a number or
    [true] is reported as an invalid goal (strategy), and a list or an
    object, which cannot be a dict key, ends the validation in a
    [TypeError]. *)
Theorem validate_non_string_value (available_goals : list Goal.t)
    (available_strategies : list Strategy.t) (patch : t) (v : json) :
  value patch = Some v -> Py.truthy v = true ->
  (forall s, v <> JStr s) ->
  (path patch = "/goal" -> op patch <> "remove" ->
   validate JsonPatchType_validate available_goals available_strategies patch
   = Raise (match v with
            | JArr _ | JObj _ => TypeError
            | _ => InvalidGoal v
            end)) /\
  (path patch = "/strategy" ->
   validate JsonPatchType_validate available_goals available_strategies patch
   = Raise (match v with
            | JArr _ | JObj _ => TypeError
            | _ => InvalidStrategy v
            end)).
Proof.
  intros Hv Ht Hns. split.
  - intros Hp Ho. unfold validate. rewrite Hp. simpl.
    destruct (String.eqb_spec (op patch) "remove") as [|_]; [contradiction|].
    simpl. unfold _validate_goal. simpl. rewrite Hv, Ht.
    destruct v as [| | |s| |]; try reflexivity; try discriminate Ht.
    by destruct (Hns s).
  - intros Hp. unfold validate. rewrite Hp. simpl. rewrite Hp. simpl.
    unfold _validate_strategy. simpl. rewrite Hv, Ht.
    destruct v as [| | |s| |]; try reflexivity; try discriminate Ht.
    by destruct (Hns s).
Qed.

End Base.

Lemma validate_false_value_witness :
  validate (fun q => Ok q) Samples.goals Samples.strategies
    (mk "/goal" "replace" (Some (JStr "")))
  = Ok (mk "/goal_id" "replace" (Some (JStr ""))) /\
  validate (fun q => Ok q) Samples.goals Samples.strategies
    (mk "/strategy" "remove" None)
  = Ok (mk "/strategy_id" "remove" None).
Proof.
  split.
  - apply (proj1 (validate_false_value (fun q => Ok q) Samples.goals
                    Samples.strategies
                    (mk "/goal" "replace" (Some (JStr ""))) eq_refl));
      [reflexivity|discriminate].
  - apply (proj2 (validate_false_value (fun q => Ok q) Samples.goals
                    Samples.strategies (mk "/strategy" "remove" None)
                    eq_refl)).
    reflexivity.
Defined.

Lemma validate_non_string_value_witness :
  validate (fun q => Ok q) Samples.goals Samples.strategies
    (mk "/goal" "replace" (Some (JArr [JStr "server_consolidation"])))
  = Raise TypeError /\
  validate (fun q => Ok q) Samples.goals Samples.strategies
    (mk "/strategy" "add" (Some (JNum 1)))
  = Raise (InvalidStrategy (JNum 1)).
Proof.
  split.
  - apply (proj1 (validate_non_string_value (fun q => Ok q) Samples.goals
                    Samples.strategies
                    (mk "/goal" "replace"
                       (Some (JArr [JStr "server_consolidation"])))
                    (JArr [JStr "server_consolidation"]) eq_refl eq_refl
                    ltac:(discriminate)));
      [reflexivity|discriminate].
  - apply (proj2 (validate_non_string_value (fun q => Ok q) Samples.goals
                    Samples.strategies
                    (mk "/strategy" "add" (Some (JNum 1)))
                    (JNum 1) eq_refl eq_refl ltac:(discriminate))).
    reflexivity.
Defined.

End PatchExtras.

(** ** The wrapper's setters and constructor *)

Module WrapperExtras.

Import AuditTemplate.

Section Lookups.

Variables is_uuid_like is_int_like : json -> bool.
Variables Goal_get Goal_get_by_name : json -> result Goal.t.
Variables Strategy_get Strategy_get_by_name : json -> result Strategy.t.

Local Abbreviation find_goal :=
  (find_goal is_uuid_like is_int_like Goal_get Goal_get_by_name).
Local Abbreviation find_strategy :=
  (find_strategy is_uuid_like is_int_like Strategy_get Strategy_get_by_name).
Local Abbreviation _set_goal_uuid :=
  (_set_goal_uuid is_uuid_like is_int_like Goal_get Goal_get_by_name).
Local Abbreviation _set_goal_name :=
  (_set_goal_name is_uuid_like is_int_like Goal_get Goal_get_by_name).
Local Abbreviation _set_strategy_uuid :=
  (_set_strategy_uuid is_uuid_like is_int_like Strategy_get
     Strategy_get_by_name).
Local Abbreviation _set_strategy_name :=
  (_set_strategy_name is_uuid_like is_int_like Strategy_get
     Strategy_get_by_name).
Local Abbreviation __init__ :=
  (__init__ is_uuid_like is_int_like Goal_get Goal_get_by_name
     Strategy_get Strategy_get_by_name).

Lemma guard_None (v : json) : guard None (Some v) = Py.truthy v.
Proof. unfold guard, differs. by rewrite andb_true_r. Qed.

Lemma guard_same (u : string) : guard (Some u) (Some (JStr u)) = false.
Proof.
  unfold guard, differs. rewrite String.eqb_refl. by rewrite andb_false_r.
Qed.

(** The four setters when the catalog read finds an entry. *)
Lemma set_goal_uuid_caches (self : t) (v : json) (g : Goal.t) :
  guard (_goal_uuid self) (Some v) = true -> find_goal v = Ok g ->
  _set_goal_uuid self (Some v)
  = Ok (set__goal_uuid (Some (Goal.uuid g))
          (set_goal_id (Some (JNum (Goal.id g))) (set__goal_uuid None self))).
Proof.
  intros G F. unfold AuditTemplate._set_goal_uuid, _get_goal.
  rewrite G, F. reflexivity.
Qed.

Lemma set_goal_name_caches (self : t) (v : json) (g : Goal.t) :
  guard (_goal_name self) (Some v) = true -> find_goal v = Ok g ->
  _set_goal_name self (Some v)
  = Ok (set__goal_name (Some (Goal.name g))
          (set_goal_id (Some (JNum (Goal.id g))) (set__goal_name None self))).
Proof.
  intros G F. unfold AuditTemplate._set_goal_name, _get_goal.
  rewrite G, F. reflexivity.
Qed.

Lemma set_strategy_uuid_caches (self : t) (v : json) (s : Strategy.t) :
  guard (_strategy_uuid self) (Some v) = true -> find_strategy v = Ok s ->
  _set_strategy_uuid self (Some v)
  = Ok (set__strategy_uuid (Some (Strategy.uuid s))
          (set_strategy_id (Some (JNum (Strategy.id s)))
             (set__strategy_uuid None self))).
Proof.
  intros G F. unfold AuditTemplate._set_strategy_uuid, _get_strategy.
  rewrite G, F. reflexivity.
Qed.

Lemma set_strategy_name_caches (self : t) (v : json) (s : Strategy.t) :
  guard (_strategy_name self) (Some v) = true -> find_strategy v = Ok s ->
  _set_strategy_name self (Some v)
  = Ok (set__strategy_name (Some (Strategy.name s))
          (set_strategy_id (Some (JNum (Strategy.id s)))
             (set__strategy_name None self))).
Proof.
  intros G F. unfold AuditTemplate._set_strategy_name, _get_strategy.
  rewrite G, F. reflexivity.
Qed.

Lemma guard_false_value (a : option string) (w : option json) :
  Py.truthy_attr w = false -> guard a w = false.
Proof.
  intros Hw. unfold guard. destruct w as [j|]; [|reflexivity].
  simpl in Hw. by rewrite Hw.
Qed.

Lemma set_strategy_false_value (self : t) (w : option json) :
  Py.truthy_attr w = false ->
  _set_strategy_uuid self w = Ok self /\ _set_strategy_name self w = Ok self.
Proof.
  intros Hw.
  unfold AuditTemplate._set_strategy_uuid, AuditTemplate._set_strategy_name.
  by rewrite !(guard_false_value _ _ Hw).
Qed.

(** The constructor when the goal identifier is true and known. *)
Lemma init_goal_found (v : json) (w : option json) (g : Goal.t) :
  Py.truthy v = true -> find_goal v = Ok g ->
  __init__ (Some v) w
  = (self <- _set_strategy_uuid
               {| goal_id := Some (JNum (Goal.id g)); strategy_id := w;
                  _goal_uuid := Some (Goal.uuid g);
                  _goal_name := Some (Goal.name g);
                  _strategy_uuid := None; _strategy_name := None |} w ;;
     _set_strategy_name self w).
Proof.
  intros Hv Hg. unfold AuditTemplate.__init__.
  rewrite (set_goal_uuid_caches (set_strategy_id w fresh) v g
             (eq_trans (guard_None v) Hv) Hg).
  unfold rbind at 1.
  rewrite (set_goal_name_caches
             (set__goal_uuid (Some (Goal.uuid g))
                (set_goal_id (Some (JNum (Goal.id g)))
                   (set__goal_uuid None (set_strategy_id w fresh))))
             v g (eq_trans (guard_None v) Hv) Hg).
  reflexivity.
Qed.

(** The constructor when both identifiers are true and known. *)
Lemma init_both_found (v w : json) (g : Goal.t) (s : Strategy.t) :
  Py.truthy v = true -> Py.truthy w = true ->
  find_goal v = Ok g -> find_strategy w = Ok s ->
  __init__ (Some v) (Some w)
  = Ok {| goal_id := Some (JNum (Goal.id g));
          strategy_id := Some (JNum (Strategy.id s));
          _goal_uuid := Some (Goal.uuid g);
          _goal_name := Some (Goal.name g);
          _strategy_uuid := Some (Strategy.uuid s);
          _strategy_name := Some (Strategy.name s) |}.
Proof.
  intros Hv Hw Hg Hs. rewrite (init_goal_found v (Some w) g Hv Hg).
  rewrite (set_strategy_uuid_caches
             {| goal_id := Some (JNum (Goal.id g)); strategy_id := Some w;
                _goal_uuid := Some (Goal.uuid g);
                _goal_name := Some (Goal.name g);
                _strategy_uuid := None; _strategy_name := None |}
             w s (eq_trans (guard_None w) Hw) Hs).
  unfold rbind.
  rewrite (set_strategy_name_caches
             (set__strategy_uuid (Some (Strategy.uuid s))
                (set_strategy_id (Some (JNum (Strategy.id s)))
                   (set__strategy_uuid None
                      {| goal_id := Some (JNum (Goal.id g));
                         strategy_id := Some w;
                         _goal_uuid := Some (Goal.uuid g);
                         _goal_name := Some (Goal.name g);
                         _strategy_uuid := None; _strategy_name := None |})))
             w s (eq_trans (guard_None w) Hw) Hs).
  reflexivity.
Qed.

(** A wrapper built from a true goal identifier and a true strategy
    identifier that the catalog knows caches, for each, the uuid, the name
    and the numeric id of the entry found, whichever form the identifier
    had. *)
Theorem init_caches_found (v w : json) (g : Goal.t) (s : Strategy.t) :
  Py.truthy v = true -> Py.truthy w = true ->
  find_goal v = Ok g -> find_strategy w = Ok s ->
  __init__ (Some v) (Some w)
  = Ok {| goal_id := Some (JNum (Goal.id g));
          strategy_id := Some (JNum (Strategy.id s));
          _goal_uuid := Some (Goal.uuid g);
          _goal_name := Some (Goal.name g);
          _strategy_uuid := Some (Strategy.uuid s);
          _strategy_name := Some (Strategy.name s) |}.
Proof. apply init_both_found. Qed.

(** Without a strategy ([Unset], [None] or an empty string) only the goal is
    cached and the strategy identifier is kept as given. *)
Lemma init_caches_goal_only (v : json) (w : option json) (g : Goal.t) :
  Py.truthy v = true -> Py.truthy_attr w = false ->
  find_goal v = Ok g ->
  __init__ (Some v) w
  = Ok {| goal_id := Some (JNum (Goal.id g));
          strategy_id := w;
          _goal_uuid := Some (Goal.uuid g);
          _goal_name := Some (Goal.name g);
          _strategy_uuid := None;
          _strategy_name := None |}.
Proof.
  intros Hv Hw Hg. rewrite (init_goal_found v w g Hv Hg).
  destruct (set_strategy_false_value
              {| goal_id := Some (JNum (Goal.id g)); strategy_id := w;
                 _goal_uuid := Some (Goal.uuid g);
                 _goal_name := Some (Goal.name g);
                 _strategy_uuid := None; _strategy_name := None |} w Hw)
    as [E1 E2].
  rewrite E1. unfold rbind. exact E2.
Qed.

(** The four setters when the catalog read raises something else than the
    not-found exception. *)
Lemma set_goal_uuid_raises (self : t) (v : json) (e : exn) :
  guard (_goal_uuid self) (Some v) = true ->
  find_goal v = Raise e -> e <> GoalNotFound ->
  _set_goal_uuid self (Some v) = Raise e.
Proof.
  intros G F Hne. unfold AuditTemplate._set_goal_uuid, _get_goal.
  rewrite G, F. by destruct e.
Qed.

Lemma set_goal_name_raises (self : t) (v : json) (e : exn) :
  guard (_goal_name self) (Some v) = true ->
  find_goal v = Raise e -> e <> GoalNotFound ->
  _set_goal_name self (Some v) = Raise e.
Proof.
  intros G F Hne. unfold AuditTemplate._set_goal_name, _get_goal.
  rewrite G, F. by destruct e.
Qed.

Lemma set_strategy_uuid_raises (self : t) (v : json) (e : exn) :
  guard (_strategy_uuid self) (Some v) = true ->
  find_strategy v = Raise e -> e <> StrategyNotFound ->
  _set_strategy_uuid self (Some v) = Raise e.
Proof.
  intros G F Hne. unfold AuditTemplate._set_strategy_uuid, _get_strategy.
  rewrite G, F. by destruct e.
Qed.

Lemma set_strategy_name_raises (self : t) (v : json) (e : exn) :
  guard (_strategy_name self) (Some v) = true ->
  find_strategy v = Raise e -> e <> StrategyNotFound ->
  _set_strategy_name self (Some v) = Raise e.
Proof.
  intros G F Hne. unfold AuditTemplate._set_strategy_name, _get_strategy.
  rewrite G, F. by destruct e.
Qed.

(** The four setters when the guard is false. *)
Lemma set_goal_uuid_skips (self : t) (value : option json) :
  guard (_goal_uuid self) value = false -> _set_goal_uuid self value = Ok self.
Proof. intros G. unfold AuditTemplate._set_goal_uuid. by rewrite G. Qed.

Lemma set_goal_name_skips (self : t) (value : option json) :
  guard (_goal_name self) value = false -> _set_goal_name self value = Ok self.
Proof. intros G. unfold AuditTemplate._set_goal_name. by rewrite G. Qed.

Lemma set_strategy_uuid_skips (self : t) (value : option json) :
  guard (_strategy_uuid self) value = false ->
  _set_strategy_uuid self value = Ok self.
Proof. intros G. unfold AuditTemplate._set_strategy_uuid. by rewrite G. Qed.

Lemma set_strategy_name_skips (self : t) (value : option json) :
  guard (_strategy_name self) value = false ->
  _set_strategy_name self value = Ok self.
Proof. intros G. unfold AuditTemplate._set_strategy_name. by rewrite G. Qed.

(** One setter applied twice, from the four ways a single application can
    go: [skips] when the guard is false, [found] when the read finds an
    entry, [missing] when it raises the not-found exception, [raises] when
    it raises another one. *)
Ltac setter_twice attr find skips found missing raises :=
  let G := fresh "G" in let G2 := fresh "G2" in
  let F := fresh "F" in let x := fresh "x" in let e := fresh "e" in
  match goal with
  | |- _ ?self (Some ?v) = Ok ?after -> _ =>
      destruct (guard (attr self) (Some v)) eqn:G;
      [ destruct (find v) as [x|e] eqn:F;
        [ rewrite (found self v x G F); intros [= <-];
          match goal with
          | |- _ ?self' _ = _ =>
              destruct (guard (attr self') (Some v)) eqn:G2;
              [ rewrite (found self' v x G2 F); reflexivity
              | exact (skips self' (Some v) G2) ]
          end
        | destruct e;
          first
            [ rewrite (missing self v F), G; intros [= <-];
              match goal with
              | |- _ ?self' _ = _ =>
                  rewrite (missing self' v F);
                  match goal with
                  | |- context [if ?b then _ else _] => destruct b
                  end; reflexivity
              end
            | rewrite (raises self v _ G F ltac:(discriminate));
              discriminate ] ]
      | rewrite (skips self (Some v) G); intros [= <-];
        exact (skips self (Some v) G) ]
  end.

(** Setting a property a second time with the same value changes nothing
    more: each of the four setters is idempotent. *)
Theorem setters_idempotent (self after : t) (value : option json) :
  (_set_goal_uuid self value = Ok after ->
   _set_goal_uuid after value = Ok after) /\
  (_set_goal_name self value = Ok after ->
   _set_goal_name after value = Ok after) /\
  (_set_strategy_uuid self value = Ok after ->
   _set_strategy_uuid after value = Ok after) /\
  (_set_strategy_name self value = Ok after ->
   _set_strategy_name after value = Ok after).
Proof.
  destruct value as [v|]; [|repeat split; by intros [= <-]].
  split; [|split; [|split]].
  - setter_twice _goal_uuid
      (AuditTemplate.find_goal is_uuid_like is_int_like Goal_get
         Goal_get_by_name)
      set_goal_uuid_skips set_goal_uuid_caches
      (WrapperFacts.set_goal_uuid_not_found is_uuid_like is_int_like Goal_get
         Goal_get_by_name)
      set_goal_uuid_raises.
  - setter_twice _goal_name
      (AuditTemplate.find_goal is_uuid_like is_int_like Goal_get
         Goal_get_by_name)
      set_goal_name_skips set_goal_name_caches
      (WrapperFacts.set_goal_name_not_found is_uuid_like is_int_like Goal_get
         Goal_get_by_name)
      set_goal_name_raises.
  - setter_twice _strategy_uuid
      (AuditTemplate.find_strategy is_uuid_like is_int_like Strategy_get
         Strategy_get_by_name)
      set_strategy_uuid_skips set_strategy_uuid_caches
      (WrapperFacts.set_strategy_uuid_not_found is_uuid_like is_int_like
         Strategy_get Strategy_get_by_name)
      set_strategy_uuid_raises.
  - setter_twice _strategy_name
      (AuditTemplate.find_strategy is_uuid_like is_int_like Strategy_get
         Strategy_get_by_name)
      set_strategy_name_skips set_strategy_name_caches
      (WrapperFacts.set_strategy_name_not_found is_uuid_like is_int_like
         Strategy_get Strategy_get_by_name)
      set_strategy_name_raises.
Qed.

(** Only the not-found exception of the catalog read is swallowed: any
    other exception it raises comes out of the setter. *)
Theorem setters_propagate (self : t) (v : json) (e : exn) :
  (find_goal v = Raise e -> e <> GoalNotFound ->
   (guard (_goal_uuid self) (Some v) = true ->
    _set_goal_uuid self (Some v) = Raise e) /\
   (guard (_goal_name self) (Some v) = true ->
    _set_goal_name self (Some v) = Raise e)) /\
  (find_strategy v = Raise e -> e <> StrategyNotFound ->
   (guard (_strategy_uuid self) (Some v) = true ->
    _set_strategy_uuid self (Some v) = Raise e) /\
   (guard (_strategy_name self) (Some v) = true ->
    _set_strategy_name self (Some v) = Raise e)).
Proof.
  split; intros F Hne; split; intros G.
  - by apply set_goal_uuid_raises.
  - by apply set_goal_name_raises.
  - by apply set_strategy_uuid_raises.
  - by apply set_strategy_name_raises.
Qed.

End Lookups.

(** Built from the goal's name and the strategy's uuid. *)
Lemma init_caches_found_witness :
  __init__ Samples.is_uuid_like Samples.is_int_like Samples.Goal_get
    Samples.Goal_get_by_name Samples.Strategy_get Samples.Strategy_get_by_name
    (Some (JStr "server_consolidation"))
    (Some (JStr "cb3d0b58-4415-4d90-b75b-1e96878730e3"))
  = Ok {| goal_id := Some (JNum 1);
          strategy_id := Some (JNum 1);
          _goal_uuid := Some "fc087747-61be-4aad-8126-b701731ae836";
          _goal_name := Some "server_consolidation";
          _strategy_uuid := Some "cb3d0b58-4415-4d90-b75b-1e96878730e3";
          _strategy_name := Some "basic" |}.
Proof.
  apply (init_caches_found Samples.is_uuid_like Samples.is_int_like
           Samples.Goal_get Samples.Goal_get_by_name Samples.Strategy_get
           Samples.Strategy_get_by_name
           (JStr "server_consolidation")
           (JStr "cb3d0b58-4415-4d90-b75b-1e96878730e3")
           Samples.server_consolidation Samples.basic); reflexivity.
Defined.

Lemma setters_idempotent_witness :
  _set_goal_name Samples.is_uuid_like Samples.is_int_like Samples.Goal_get
    Samples.Goal_get_by_name
    (set_goal_id (Some (JNum 2)) (set__goal_name (Some "thermal_optimization")
                                    fresh))
    (Some (JNum 2))
  = Ok (set_goal_id (Some (JNum 2))
          (set__goal_name (Some "thermal_optimization") fresh)).
Proof.
  apply (proj1 (proj2 (setters_idempotent Samples.is_uuid_like
                         Samples.is_int_like Samples.Goal_get
                         Samples.Goal_get_by_name Samples.Strategy_get
                         Samples.Strategy_get_by_name fresh
                         (set_goal_id (Some (JNum 2))
                            (set__goal_name (Some "thermal_optimization")
                               fresh))
                         (Some (JNum 2))))).
  reflexivity.
Defined.

(** A catalog read that fails for another reason. *)
Lemma setters_propagate_witness :
  _set_goal_uuid Samples.is_uuid_like Samples.is_int_like
    (fun _ => Raise TypeError) (fun _ => Raise TypeError) fresh
    (Some (JStr "server_consolidation"))
  = Raise TypeError.
Proof.
  apply (proj1 (proj1 (setters_propagate Samples.is_uuid_like
                         Samples.is_int_like (fun _ => Raise TypeError)
                         (fun _ => Raise TypeError) Samples.Strategy_get
                         Samples.Strategy_get_by_name fresh
                         (JStr "server_consolidation") TypeError)
                 eq_refl ltac:(discriminate))).
  reflexivity.
Defined.

Lemma init_unknown_identifiers_witness :
  __init__ Samples.is_uuid_like Samples.is_int_like Samples.Goal_get
    Samples.Goal_get_by_name Samples.Strategy_get Samples.Strategy_get_by_name
    (Some (JStr "no_such_goal")) (Some (JStr "no_such_strategy"))
  = Ok (set_strategy_id (Some (JStr "no_such_strategy")) fresh).
Proof.
  apply (WrapperFacts.init_unknown_identifiers Samples.is_uuid_like
           Samples.is_int_like Samples.Goal_get Samples.Goal_get_by_name
           Samples.Strategy_get Samples.Strategy_get_by_name
           (JStr "no_such_goal") (JStr "no_such_strategy")); reflexivity.
Defined.

End WrapperExtras.

(** ** From a request or a stored template to the wrapper *)

Module APIExtras.

Import AuditTemplateAPI.

Section Lookups.

Variables is_uuid_like is_int_like : json -> bool.
Variables Goal_get Goal_get_by_name : json -> result Goal.t.
Variables Strategy_get Strategy_get_by_name : json -> result Strategy.t.

Local Abbreviation find_goal :=
  (AuditTemplate.find_goal is_uuid_like is_int_like Goal_get Goal_get_by_name).
Local Abbreviation find_strategy :=
  (AuditTemplate.find_strategy is_uuid_like is_int_like Strategy_get
     Strategy_get_by_name).
Local Abbreviation as_audit_template :=
  (as_audit_template is_uuid_like is_int_like Goal_get Goal_get_by_name
     Strategy_get Strategy_get_by_name).
Local Abbreviation convert_with_links :=
  (convert_with_links is_uuid_like is_int_like Goal_get Goal_get_by_name
     Strategy_get Strategy_get_by_name).

Lemma truthy_text_str (s : string) :
  Py.truthy_text (Some s) = Py.truthy (JStr s).
Proof. reflexivity. Qed.

(** A create request that [validate] accepted, turned into the wrapper
    against the catalog [validate] saw (every listed goal and strategy is
    what the catalog reads for its uuid, and goal uuids are not empty): the
    wrapper caches the id, the uuid and the name of the goal the request
    resolved to and, when a strategy was named, those of that strategy; the
    name, the description and the scope are the request's. *)
Theorem create_caches_resolved (available_goals : list Goal.t)
    (available_strategies : list Strategy.t)
    (collectors : gmap string collector)
    (audit_template validated : AuditTemplatePostType.t) :
  AuditTemplatePostType.validate available_goals available_strategies
    collectors audit_template = Ok validated ->
  (forall g, g ∈ available_goals ->
             Goal.uuid g <> "" /\ find_goal (JStr (Goal.uuid g)) = Ok g) ->
  (forall x, x ∈ available_strategies ->
             find_strategy (JStr (Strategy.uuid x)) = Ok x) ->
  exists g api,
    AuditTemplatePostType.resolve_goal available_goals
      (AuditTemplatePostType.goal audit_template) = Ok g /\
    as_audit_template validated = Ok api /\
    uuid api = None /\
    name api = Some (AuditTemplatePostType.name audit_template) /\
    description api = AuditTemplatePostType.description audit_template /\
    scope api = Some (AuditTemplatePostType.scope audit_template) /\
    AuditTemplate.goal_id (refs api) = Some (JNum (Goal.id g)) /\
    AuditTemplate._goal_uuid (refs api) = Some (Goal.uuid g) /\
    AuditTemplate._goal_name (refs api) = Some (Goal.name g) /\
    (Py.truthy_text (AuditTemplatePostType.strategy audit_template) = true ->
     exists x, x ∈ available_strategies /\
               Strategy.goal_id x = Goal.id g /\
               AuditTemplate.strategy_id (refs api)
               = Some (JNum (Strategy.id x)) /\
               AuditTemplate._strategy_uuid (refs api)
               = Some (Strategy.uuid x) /\
               AuditTemplate._strategy_name (refs api)
               = Some (Strategy.name x)) /\
    (Py.truthy_text (AuditTemplatePostType.strategy audit_template) = false ->
     AuditTemplate.strategy_id (refs api)
     = option_map JStr (AuditTemplatePostType.strategy audit_template) /\
     AuditTemplate._strategy_uuid (refs api) = None /\
     AuditTemplate._strategy_name (refs api) = None).
Proof.
  intros H Hgoals Hstrategies. unfold AuditTemplatePostType.validate in H.
  apply rbind_Ok in H as (g & Hg & H).
  apply rbind_Ok in H as (u & _ & H).
  apply rbind_Ok in H as (stored & Hs & H).
  injection H as <-.
  destruct (PostFacts.resolve_goal_Ok _ _ _ Hg) as [Hin _].
  destruct (Hgoals g Hin) as [Hne Hfind].
  assert (Hv : Py.truthy (JStr (Goal.uuid g)) = true)
    by (by apply PatchFacts.truthy_nonempty).
  apply PostFacts.check_strategy_Ok in Hs as [Ht Hf].
  exists g. unfold AuditTemplateAPI.as_audit_template. simpl.
  destruct (Py.truthy_text (AuditTemplatePostType.strategy audit_template))
    eqn:Et.
  - destruct (Ht eq_refl) as (x & Hx & Hgiven & Hgx & ->). simpl.
    assert (Hw : Py.truthy (JStr (Strategy.uuid x)) = true).
    { rewrite Hgiven in Et. exact Et. }
    rewrite (WrapperExtras.init_both_found _ _ _ _ _ _ _ _ g x Hv Hw Hfind
               (Hstrategies x Hx)).
    simpl. eexists. split; [done|]. split; [reflexivity|]. simpl.
    repeat (split; [reflexivity|]). split; [|discriminate].
    intros _. by exists x.
  - rewrite (Hf eq_refl).
    assert (Hw : Py.truthy_attr
                   (option_map JStr
                      (AuditTemplatePostType.strategy audit_template))
                 = false).
    { destruct (AuditTemplatePostType.strategy audit_template); exact Et. }
    rewrite (WrapperExtras.init_caches_goal_only _ _ _ _ _ _ _ _ g Hv Hw Hfind).
    simpl. eexists. split; [done|]. split; [reflexivity|]. simpl.
    repeat (split; [reflexivity|]). split; [discriminate|]. done.
Qed.

(** A stored template turned into the response: with a non-zero goal id
    the catalog knows, and a strategy id that is [None] or non-zero and
    known, the response carries the uuid and the name of the goal (and of
    the strategy, if any) and neither numeric id; without [expand] the
    description is dropped too. *)
Theorem convert_hides_ids (rpc_audit_template : rpc) (expand : bool)
    (g : Goal.t) (sx : option Strategy.t) :
  rpc_goal_id rpc_audit_template <> 0 ->
  find_goal (JNum (rpc_goal_id rpc_audit_template)) = Ok g ->
  match rpc_strategy_id rpc_audit_template, sx with
  | None, None => True
  | Some i, Some x => i <> 0 /\ find_strategy (JNum i) = Ok x
  | _, _ => False
  end ->
  convert_with_links rpc_audit_template expand
  = Ok {| uuid := Some (rpc_uuid rpc_audit_template);
          name := Some (rpc_name rpc_audit_template);
          description := if expand then rpc_description rpc_audit_template
                         else None;
          scope := Some (rpc_scope rpc_audit_template);
          refs := {| AuditTemplate.goal_id := None;
                     AuditTemplate.strategy_id := None;
                     AuditTemplate._goal_uuid := Some (Goal.uuid g);
                     AuditTemplate._goal_name := Some (Goal.name g);
                     AuditTemplate._strategy_uuid :=
                       option_map Strategy.uuid sx;
                     AuditTemplate._strategy_name :=
                       option_map Strategy.name sx |} |}.
Proof.
  intros Hne Hg Hs. unfold AuditTemplateAPI.convert_with_links.
  assert (Hv : Py.truthy (JNum (rpc_goal_id rpc_audit_template)) = true).
  { simpl. by destruct (Z.eqb_spec (rpc_goal_id rpc_audit_template) 0). }
  destruct (rpc_strategy_id rpc_audit_template) as [i|], sx as [x|];
    try contradiction.
  - destruct Hs as [Hi Hx].
    assert (Hw : Py.truthy (JNum i) = true).
    { simpl. by destruct (Z.eqb_spec i 0). }
    simpl. rewrite (WrapperExtras.init_both_found _ _ _ _ _ _ _ _ g x Hv Hw
                      Hg Hx).
    reflexivity.
  - simpl.
    rewrite (WrapperExtras.init_caches_goal_only _ _ _ _ _ _ _ (Some JNull) g
               Hv eq_refl Hg).
    reflexivity.
Qed.

End Lookups.

Lemma create_caches_resolved_witness :
  exists api,
    as_audit_template Samples.is_uuid_like Samples.is_int_like
      Samples.Goal_get Samples.Goal_get_by_name Samples.Strategy_get
      Samples.Strategy_get_by_name Samples.stored = Ok api /\
    AuditTemplate._goal_name (refs api) = Some "server_consolidation" /\
    AuditTemplate._strategy_name (refs api) = Some "basic".
Proof.
  destruct (create_caches_resolved Samples.is_uuid_like Samples.is_int_like
              Samples.Goal_get Samples.Goal_get_by_name Samples.Strategy_get
              Samples.Strategy_get_by_name Samples.goals Samples.strategies
              Samples.collectors Samples.posted Samples.stored eq_refl)
    as (g & api & Hg & Hapi & _ & _ & _ & _ & _ & _ & Hname & Hs & _).
  - intros g Hg. unfold Samples.goals in Hg.
    apply elem_of_cons in Hg as [->|Hg]; [split; [discriminate|reflexivity]|].
    apply elem_of_cons in Hg as [->|Hg]; [split; [discriminate|reflexivity]|].
    by apply not_elem_of_nil in Hg.
  - intros x Hx. unfold Samples.strategies in Hx.
    apply elem_of_cons in Hx as [->|Hx]; [reflexivity|].
    apply elem_of_cons in Hx as [->|Hx]; [reflexivity|].
    by apply not_elem_of_nil in Hx.
  - exists api. split; [exact Hapi|].
    vm_compute in Hg. injection Hg as <-. split; [exact Hname|].
    destruct (Hs eq_refl) as (x & Hx & Hgx & _ & _ & Hsn).
    rewrite Hsn. unfold Samples.strategies in Hx.
    apply elem_of_cons in Hx as [->|Hx]; [reflexivity|].
    apply elem_of_cons in Hx as [->|Hx]; [discriminate Hgx|].
    by apply not_elem_of_nil in Hx.
Defined.

Lemma convert_hides_ids_witness :
  convert_with_links Samples.is_uuid_like Samples.is_int_like
    Samples.Goal_get Samples.Goal_get_by_name Samples.Strategy_get
    Samples.Strategy_get_by_name
    (mk_rpc "27e3153e-d5bf-4b7e-b517-fb518e17f34c" "My Audit Template"
       (Some "Description of my audit template") 2 None (JArr []))
    false
  = Ok {| uuid := Some "27e3153e-d5bf-4b7e-b517-fb518e17f34c";
          name := Some "My Audit Template";
          description := None;
          scope := Some (JArr []);
          refs := {| AuditTemplate.goal_id := None;
                     AuditTemplate.strategy_id := None;
                     AuditTemplate._goal_uuid :=
                       Some "bb7b3b4a-8ad6-4d4b-a5b4-1d0d2a4b5a11";
                     AuditTemplate._goal_name := Some "thermal_optimization";
                     AuditTemplate._strategy_uuid := None;
                     AuditTemplate._strategy_name := None |} |}.
Proof.
  apply (convert_hides_ids Samples.is_uuid_like Samples.is_int_like
           Samples.Goal_get Samples.Goal_get_by_name Samples.Strategy_get
           Samples.Strategy_get_by_name
           (mk_rpc "27e3153e-d5bf-4b7e-b517-fb518e17f34c" "My Audit Template"
              (Some "Description of my audit template") 2 None (JArr []))
           false Samples.thermal_optimization None).
  - discriminate.
  - reflexivity.
  - exact I.
Defined.

End APIExtras.

(** ** The listing filters *)

Module ControllerExtras.

Import AuditTemplatesController.

Section Filters.

Variable is_uuid_like : json -> bool.

Local Abbreviation filters := (filters is_uuid_like).

Lemma add_filter_lookup (uuid_key name_key : string) (value : option string)
    (f : gmap string string) (k v : string) :
  uuid_key <> name_key ->
  add_filter is_uuid_like uuid_key name_key value f !! k = Some v ->
  (f !! k = Some v /\
   (Py.truthy_text value = false \/
    k <> (if is_uuid_like (JStr v) then uuid_key else name_key) \/
    value <> Some v)) \/
  (value = Some v /\ v <> "" /\
   k = if is_uuid_like (JStr v) then uuid_key else name_key).
Proof.
  intros Hkeys. unfold add_filter.
  destruct value as [s|]; [|intros H; left; auto].
  simpl. destruct (String.eqb_spec s "") as [->|Hs]; simpl;
    [intros H; left; auto|].
  destruct (is_uuid_like (JStr s)) eqn:Eu.
  - destruct (decide (k = uuid_key)) as [->|Hk].
    + rewrite lookup_insert_eq. intros [= <-]. right. by rewrite Eu.
    + rewrite lookup_insert_ne by done. intros H. left. split; [done|].
      right. destruct (decide (Some s = Some v)) as [[= <-]|Hne]; [|auto].
      left. by rewrite Eu.
  - destruct (decide (k = name_key)) as [->|Hk].
    + rewrite lookup_insert_eq. intros [= <-]. right. by rewrite Eu.
    + rewrite lookup_insert_ne by done. intros H. left. split; [done|].
      right. destruct (decide (Some s = Some v)) as [[= <-]|Hne]; [|auto].
      left. by rewrite Eu.
Qed.

(** The filters [get_all] and [detail] pass on: every entry comes from a
    non-empty [goal] or [strategy] argument, filed under the uuid key when
    the value has the shape of a uuid and under the name key otherwise; so
    a goal is never filtered by uuid and by name at once, nor is a strategy,
    and a non-empty argument always yields its filter. *)
Theorem filters_shape (goal strategy : option string) :
  (forall k v, filters goal strategy !! k = Some v ->
     v <> "" /\
     ((goal = Some v /\
       k = if is_uuid_like (JStr v) then "goal_uuid" else "goal_name") \/
      (strategy = Some v /\
       k = if is_uuid_like (JStr v) then "strategy_uuid"
           else "strategy_name"))) /\
  (filters goal strategy !! "goal_uuid" = None \/
   filters goal strategy !! "goal_name" = None) /\
  (filters goal strategy !! "strategy_uuid" = None \/
   filters goal strategy !! "strategy_name" = None) /\
  (forall s, goal = Some s -> s <> "" ->
     filters goal strategy
       !! (if is_uuid_like (JStr s) then "goal_uuid" else "goal_name")
     = Some s) /\
  (forall s, strategy = Some s -> s <> "" ->
     filters goal strategy
       !! (if is_uuid_like (JStr s) then "strategy_uuid" else "strategy_name")
     = Some s).
Proof.
  assert (Hchar : forall k v, filters goal strategy !! k = Some v ->
     v <> "" /\
     ((goal = Some v /\
       k = if is_uuid_like (JStr v) then "goal_uuid" else "goal_name") \/
      (strategy = Some v /\
       k = if is_uuid_like (JStr v) then "strategy_uuid"
           else "strategy_name"))).
  { intros k v H. unfold AuditTemplatesController.filters in H.
    apply add_filter_lookup in H as [[H _]|(Hs & Hv & Hk)];
      [|by auto|discriminate].
    apply add_filter_lookup in H as [[H _]|(Hg & Hv & Hk)];
      [|by auto|discriminate].
    by rewrite lookup_empty in H. }
  split; [exact Hchar|]. split; [|split; [|split]].
  - destruct (filters goal strategy !! "goal_uuid") as [v|] eqn:E1; [|auto].
    destruct (filters goal strategy !! "goal_name") as [v'|] eqn:E2; [|auto].
    exfalso. apply Hchar in E1 as [_ [[Hg Hk]|[_ Hk]]];
      apply Hchar in E2 as [_ [[Hg' Hk']|[_ Hk']]];
      try (destruct (is_uuid_like (JStr v)); discriminate);
      try (destruct (is_uuid_like (JStr v')); discriminate).
    rewrite Hg in Hg'. injection Hg' as <-.
    destruct (is_uuid_like (JStr v)); discriminate.
  - destruct (filters goal strategy !! "strategy_uuid") as [v|] eqn:E1; [|auto].
    destruct (filters goal strategy !! "strategy_name") as [v'|] eqn:E2;
      [|auto].
    exfalso. apply Hchar in E1 as [_ [[_ Hk]|[Hg Hk]]];
      apply Hchar in E2 as [_ [[_ Hk']|[Hg' Hk']]];
      try (destruct (is_uuid_like (JStr v)); discriminate);
      try (destruct (is_uuid_like (JStr v')); discriminate).
    rewrite Hg in Hg'. injection Hg' as <-.
    destruct (is_uuid_like (JStr v)); discriminate.
  - intros s -> Hs. unfold AuditTemplatesController.filters, add_filter.
    destruct (String.eqb_spec s "") as [|_]; [contradiction|]. simpl.
    destruct strategy as [t|]; simpl.
    + destruct (negb (String.eqb t "")).
      * destruct (is_uuid_like (JStr t)), (is_uuid_like (JStr s));
          rewrite lookup_insert_ne by discriminate;
          by rewrite lookup_insert_eq.
      * destruct (is_uuid_like (JStr s)); by rewrite lookup_insert_eq.
    + destruct (is_uuid_like (JStr s)); by rewrite lookup_insert_eq.
  - intros s -> Hs. unfold AuditTemplatesController.filters.
    unfold add_filter at 1.
    destruct (String.eqb_spec s "") as [|_]; [contradiction|]. simpl.
    destruct (is_uuid_like (JStr s)); by rewrite lookup_insert_eq.
Qed.

End Filters.

End ControllerExtras.
